(** * The strangler-fig proxy (API gateway) of cinema-microservices-migration

    A shallow embedding of [src/microservices/proxy/main.go]: configuration
    loading, the routing handler [ServeHTTP] with its migration policy
    [shouldRouteToNewService], the health handler, the reverse proxies
    built by [createReverseProxy] and the logging and CORS middleware,
    followed by the properties of the routing design proved about them.

    Go's [int] is taken at 64 bits and modelled in [Z]; strings are
    [string]; the process environment is a finite map; the handler's
    effects (random draws, log lines, round trips to a backend) are
    threaded through an explicit state. *)

From Stdlib Require Import ZArith String Ascii List Bool Lia.
From stdpp Require Import base option strings gmap.
Import ListNotations.

Local Open Scope string_scope.
Local Open Scope Z_scope.

(** ** Library functions the program calls *)

Module strings.

(** [strings.HasPrefix(s, prefix)]:
    [len(s) >= len(prefix) && s[:len(prefix)] == prefix]. *)
Definition HasPrefix (s prefix : string) : bool :=
  (String.length prefix <=? String.length s)%nat
  && String.eqb (substring 0 (String.length prefix) s) prefix.

End strings.

Module strconv.

Definition minInt : Z := - 2 ^ 63.
Definition maxInt : Z := 2 ^ 63 - 1.

Definition digit (c : ascii) : option Z :=
  let n := Z.of_N (N_of_ascii c) in
  if (48 <=? n) && (n <=? 57) then Some (n - 48) else None.

(** Value of a run of decimal digits, most significant first;
    [None] as soon as a character is not a digit. *)
Fixpoint digits (acc : Z) (s : string) : option Z :=
  match s with
  | EmptyString => Some acc
  | String c s' =>
      match digit c with
      | Some d => digits (10 * acc + d) s'
      | None => None
      end
  end.

(** [strconv.Atoi]: an optional sign, then one or more decimal digits,
    and a value that fits [int]; every other string is an error. *)
Definition Atoi (s : string) : option Z :=
  let '(neg, body) :=
    match s with
    | String "-" s' => (true, s')
    | String "+" s' => (false, s')
    | _ => (false, s)
    end in
  match body with
  | EmptyString => None
  | _ =>
      match digits 0 body with
      | Some n =>
          let v := if neg then - n else n in
          if (minInt <=? v) && (v <=? maxInt) then Some v else None
      | None => None
      end
  end.

End strconv.

Module os.

(** The process environment; [os.Getenv] gives the empty string for a
    variable that is not set. *)
Definition Getenv (env : gmap string string) (key : string) : string :=
  default "" (env !! key).

End os.

(** ** Configuration *)

Record Config := mkConfig {
  Port : string;
  MonolithURL : string;
  MoviesServiceURL : string;
  EventsServiceURL : string;
  GradualMigration : bool;
  MoviesMigrationPercent : Z
}.

(** [loadConfig]: every setting comes from the environment, with a
    default when the variable is empty or unset. *)
Definition loadConfig (env : gmap string string) : Config :=
  let port := os.Getenv env "PORT" in
  let port := if String.eqb port "" then "8000" else port in
  let monolithURL := os.Getenv env "MONOLITH_URL" in
  let monolithURL :=
    if String.eqb monolithURL "" then "http://localhost:8080" else monolithURL in
  let moviesServiceURL := os.Getenv env "MOVIES_SERVICE_URL" in
  let moviesServiceURL :=
    if String.eqb moviesServiceURL "" then "http://localhost:8081"
    else moviesServiceURL in
  let eventsServiceURL := os.Getenv env "EVENTS_SERVICE_URL" in
  let eventsServiceURL :=
    if String.eqb eventsServiceURL "" then "http://localhost:8082"
    else eventsServiceURL in
  let gradualMigration := String.eqb (os.Getenv env "GRADUAL_MIGRATION") "true" in
  let migrationPercent := 50 in
  let migrationPercent :=
    let percentStr := os.Getenv env "MOVIES_MIGRATION_PERCENT" in
    if negb (String.eqb percentStr "") then
      match strconv.Atoi percentStr with
      | Some percent => percent
      | None => migrationPercent
      end
    else migrationPercent in
  {| Port := port;
     MonolithURL := monolithURL;
     MoviesServiceURL := moviesServiceURL;
     EventsServiceURL := eventsServiceURL;
     GradualMigration := gradualMigration;
     MoviesMigrationPercent := migrationPercent |}.

(** ** HTTP: requests, responses and the response writer *)

Module url.

Record URL := mkURL {
  Scheme : string;
  Host : string;
  Path : string;
  RawQuery : string
}.

End url.

Module http.

Definition StatusOK : Z := 200.
Definition StatusBadGateway : Z := 502.

(** [http.Header] is [map[string][]string]. The keys the program uses
    are already in canonical form, so [Set] and [Add] take them as
    they are. *)
Abbreviation Header := (gmap string (list string)).

Definition Header_Set (key value : string) (h : Header) : Header :=
  <[key := [value]]> h.

Definition Header_Add (key value : string) (h : Header) : Header :=
  <[key := (default [] (h !! key) ++ [value])%list]> h.

Definition Header_Get (key : string) (h : Header) : string :=
  match h !! key with
  | Some (v :: _) => v
  | _ => ""
  end.

Record Request := mkRequest {
  Method : string;
  URL : url.URL;
  Host : string;
  RequestURI : string;
  RemoteAddr : string;
  ReqHeader : Header;
  ReqBody : string
}.

(** The status codes [RoundTrip] can hand to the reverse proxy for
    relaying: final ones. A [101] reply (the library's protocol-upgrade
    path) and a status line below [100] are not represented. *)
Definition finalStatus (code : Z) : bool := (200 <=? code) && (code <=? 999).

(** A backend's response: its status and headers, the bytes of the body
    that arrived, and the error that ended the body early, if one did. *)
Record Response := mkResponse {
  StatusCode : Z;
  ResHeader : Header;
  ResBody : string;
  ResBodyErr : option string;
  StatusFinal : Is_true (finalStatus StatusCode)
}.

(** How a call of a handler ends: it returns, or it panics with a value;
    either way the writer is left as the handler had it. *)
Inductive Outcome (W : Type) :=
| Returned (w : W)
| Panicked (w : W) (v : string).
Arguments Returned {W} w.
Arguments Panicked {W} w v.

(** [http.ErrAbortHandler], the panic value that makes the server drop
    the connection without logging. *)
Definition ErrAbortHandler : string := "net/http: abort Handler".

(** The [http.ResponseWriter] interface. [Header()] hands out the
    writer's own map, so a mutation of that map is an update of the
    writer: [updHeader]. *)
Class ResponseWriter (W : Type) := {
  GetHeader : W -> Header;
  updHeader : (Header -> Header) -> W -> W;
  Write : string -> W -> W;
  WriteHeader : Z -> W -> W
}.

(** The server's own writer: the header map the handler works on, the
    status and headers that were fixed by the first final [WriteHeader],
    the interim ([1xx]) status lines sent before it, the body written,
    and whether the server dropped the connection because the handler
    panicked. What an aborted writer holds was handed to the connection
    before the abort; the client may have received only part of it. *)
Record response := mkresponse {
  handlerHeader : Header;
  wroteHeader : bool;
  status : Z;
  sentHeader : Header;
  interim : list Z;
  body : string;
  aborted : bool
}.

(** [checkWriteHeaderCode]: the codes [WriteHeader] takes. *)
Definition checkWriteHeaderCode (code : Z) : bool :=
  (100 <=? code) && (code <=? 999).

(** [response.WriteHeader]. After the header is written, a further call
    is ignored. A code outside [100..999] makes the call panic: the
    server recovers, drops the connection, and the writer takes nothing
    more. A [1xx] code other than [101] goes out as an interim response
    and fixes nothing. Any other code fixes the status and the headers
    that go out. *)
Definition response_WriteHeader (code : Z) (w : response) : response :=
  if aborted w then w
  else if wroteHeader w then w
  else if negb (checkWriteHeaderCode code) then
    {| handlerHeader := handlerHeader w;
       wroteHeader := wroteHeader w;
       status := status w;
       sentHeader := sentHeader w;
       interim := interim w;
       body := body w;
       aborted := true |}
  else if (code <=? 199) && negb (code =? 101) then
    {| handlerHeader := handlerHeader w;
       wroteHeader := wroteHeader w;
       status := status w;
       sentHeader := sentHeader w;
       interim := (interim w ++ [code])%list;
       body := body w;
       aborted := aborted w |}
  else
    {| handlerHeader := handlerHeader w;
       wroteHeader := true;
       status := code;
       sentHeader := handlerHeader w;
       interim := interim w;
       body := body w;
       aborted := aborted w |}.

(** [response.Write]: a [Write] before any final [WriteHeader] sends
    [200] first. *)
Definition response_Write (data : string) (w : response) : response :=
  if aborted w then w
  else
    let w := if wroteHeader w then w else response_WriteHeader StatusOK w in
    {| handlerHeader := handlerHeader w;
       wroteHeader := wroteHeader w;
       status := status w;
       sentHeader := sentHeader w;
       interim := interim w;
       body := body w ++ data;
       aborted := aborted w |}.

#[global] Instance response_writer : ResponseWriter response := {
  GetHeader := handlerHeader;
  updHeader f w :=
    if aborted w then w
    else
      {| handlerHeader := f (handlerHeader w);
         wroteHeader := wroteHeader w;
         status := status w;
         sentHeader := sentHeader w;
         interim := interim w;
         body := body w;
         aborted := aborted w |};
  Write := response_Write;
  WriteHeader := response_WriteHeader
}.

(** The writer a connection starts a request with. *)
Definition newResponse : response :=
  {| handlerHeader := ∅; wroteHeader := false; status := 0;
     sentHeader := ∅; interim := []; body := ""; aborted := false |}.

(** What is left of a writer whose handler panicked. *)
Definition abort (w : response) : response :=
  {| handlerHeader := handlerHeader w;
     wroteHeader := wroteHeader w;
     status := status w;
     sentHeader := sentHeader w;
     interim := interim w;
     body := body w;
     aborted := true |}.

End http.

Module rand.

(** [*rand.Rand]. The generator's algorithm belongs to [math/rand]; its
    raw outputs are an oracle tape, read one cell per draw. *)
Record Rand := mkRand {
  tape : nat -> Z;
  cursor : nat
}.

(** [Intn(n)], for [n > 0]: the raw draw reduced modulo [n], as the
    library's last step does. (The library panics on [n <= 0]; the
    program only calls [Intn(100)].) *)
Definition Intn (n : Z) (r : Rand) : Z * Rand :=
  (tape r (cursor r) mod n, {| tape := tape r; cursor := S (cursor r) |}).

End rand.

Module json.

Definition dquote : ascii := ascii_of_N 34.
Definition newline : ascii := ascii_of_N 10.

Definition hexdigit (n : Z) : ascii :=
  ascii_of_N (Z.to_N (if n <? 10 then 48 + n else 87 + n)).

(** Escaping of one byte inside a JSON string, as [encoding/json] does
    for ASCII text: short forms for the quote, the backslash, newline,
    carriage return and tab, a [u00xx] escape for the other control
    characters and for the HTML-sensitive ones. *)
Definition escape (c : ascii) : string :=
  let n := Z.of_N (N_of_ascii c) in
  if n =? 34 then String "\" (String dquote "")
  else if Ascii.eqb c "\" then "\\"
  else if n =? 10 then "\n"
  else if n =? 13 then "\r"
  else if n =? 9 then "\t"
  else if (n <? 32) || Ascii.eqb c "<" || Ascii.eqb c ">" || Ascii.eqb c "&"
       then "\u00" ++ String (hexdigit (n / 16)) (String (hexdigit (n mod 16)) "")
  else String c "".

Fixpoint escapes (s : string) : string :=
  match s with
  | EmptyString => ""
  | String c s' => escape c ++ escapes s'
  end.

Definition quote (s : string) : string :=
  String dquote (escapes s ++ String dquote "").

Fixpoint members (kvs : list (string * string)) : string :=
  match kvs with
  | [] => ""
  | [(k, v)] => quote k ++ ":" ++ quote v
  | (k, v) :: rest => quote k ++ ":" ++ quote v ++ "," ++ members rest
  end.

(** [json.NewEncoder(w).Encode(m)] for [m : map[string]string], given
    as its entries in key order: the object on one line, then a
    newline. *)
Definition Encode (kvs : list (string * string)) : string :=
  "{" ++ members kvs ++ "}" ++ String newline "".

End json.

(** ** The handler's effects *)

(** One constructor per [log.Printf] format of the program (and the
    lines of the library's default error handler and of its body copy);
    time stamps and durations are left out. *)
Inductive LogLine :=
| Incoming (method path : string)
| RoutingEvents (path : string)
| RoutingMovies (path : string) (percent : Z)
| RoutingMonolith (path : string) (percent : Z)
| RoutingDefault (path : string)
| ProxyError (err : string)
| LibraryProxyError (err : string)
| LibraryCopyError (err : string)
| Access (method uri remote : string) (statusCode : Z).

(** What a request handler can touch besides its writer: the server's
    random source, the network behind the proxies (for each outbound
    request the transport either returns an error, before any response
    header, or yields a response), the outbound requests handed to the
    transport so far, and the log. A backend that never answers is not
    represented: no backend timeout is configured, and the call would
    not return. *)
Record World := mkWorld {
  rng : rand.Rand;
  backend : http.Request -> string + http.Response;
  roundTrips : list http.Request;
  logged : list LogLine
}.

Definition M (A : Type) : Type := World -> A * World.

#[export] Instance M_ret : MRet M := fun A a σ => (a, σ).

#[export] Instance M_bind : MBind M :=
  fun A B k c σ => let '(a, σ') := c σ in k a σ'.

Definition log_Printf (l : LogLine) : M unit :=
  fun σ => (tt, {| rng := rng σ; backend := backend σ;
                   roundTrips := roundTrips σ;
                   logged := (logged σ ++ [l])%list |}).

Definition rand_Intn (n : Z) : M Z :=
  fun σ => let '(v, r) := rand.Intn n (rng σ) in
           (v, {| rng := r; backend := backend σ;
                  roundTrips := roundTrips σ; logged := logged σ |}).

(** [http.Transport.RoundTrip]: one call of the transport with the
    outbound request. (What the transport does on the wire for one call
    is below this model.) *)
Definition RoundTrip (req : http.Request) : M (string + http.Response) :=
  fun σ => (backend σ req,
            {| rng := rng σ; backend := backend σ;
               roundTrips := (roundTrips σ ++ [req])%list;
               logged := logged σ |}).

(** [http.Handler]: a handler works with any response writer; its call
    returns or panics. *)
Definition Handler : Type :=
  forall W : Type, http.ResponseWriter W ->
    W -> http.Request -> M (http.Outcome W).

(** ** [net/http/httputil]: the reverse proxy *)

Module httputil.

Record ReverseProxy := mkReverseProxy {
  Director : http.Request -> http.Request;
  ErrorHandler :
    option (forall W : Type, http.ResponseWriter W ->
            W -> http.Request -> string -> M (http.Outcome W))
}.

Definition HasSuffix (s suffix : string) : bool :=
  (String.length suffix <=? String.length s)%nat
  && String.eqb (substring (String.length s - String.length suffix)
                           (String.length suffix) s) suffix.

Definition singleJoiningSlash (a b : string) : string :=
  let aslash := HasSuffix a "/" in
  let bslash := strings.HasPrefix b "/" in
  if aslash && bslash then a ++ substring 1 (String.length b - 1) b
  else if negb aslash && negb bslash then a ++ "/" ++ b
  else a ++ b.

(** The director of [NewSingleHostReverseProxy(target)]: the request
    goes to the target's scheme and host, under the target's base path
    (paths without escaped forms). *)
Definition singleHostDirector (target : url.URL) (req : http.Request)
  : http.Request :=
  let u := http.URL req in
  let targetQuery := url.RawQuery target in
  {| http.Method := http.Method req;
     http.URL :=
       {| url.Scheme := url.Scheme target;
          url.Host := url.Host target;
          url.Path := singleJoiningSlash (url.Path target) (url.Path u);
          url.RawQuery :=
            if String.eqb targetQuery "" || String.eqb (url.RawQuery u) ""
            then targetQuery ++ url.RawQuery u
            else targetQuery ++ "&" ++ url.RawQuery u |};
     http.Host := http.Host req;
     http.RequestURI := http.RequestURI req;
     http.RemoteAddr := http.RemoteAddr req;
     http.ReqHeader := http.ReqHeader req;
     http.ReqBody := http.ReqBody req |}.

Definition NewSingleHostReverseProxy (target : url.URL) : ReverseProxy :=
  {| Director := singleHostDirector target; ErrorHandler := None |}.

Definition defaultErrorHandler : forall W : Type, http.ResponseWriter W ->
    W -> http.Request -> string -> M (http.Outcome W) :=
  fun W _ rw req err =>
    log_Printf (LibraryProxyError err) ;;
    mret (http.Returned (http.WriteHeader http.StatusBadGateway rw)).

(** [copyHeader(dst, src)]: every value of [src] is added to [dst]
    under its key. *)
Definition copyHeader (src dst : http.Header) : http.Header :=
  union_with (fun old new => Some (old ++ new)%list) dst src.

(** [ReverseProxy.ServeHTTP]: direct the outbound request and call the
    transport once. On an error call the error handler. Otherwise relay
    the response's headers and status, then copy the body; when the
    body ends in an error the bytes that arrived have been written, the
    error is logged, and the call panics with [ErrAbortHandler], as it
    does under a server. (The library's housekeeping of hop-by-hop and
    forwarding headers is left out.) *)
Definition ReverseProxy_ServeHTTP (p : ReverseProxy) : Handler :=
  fun W _ rw req =>
    let outreq := Director p req in
    res ← RoundTrip outreq ;
    match res with
    | inl err =>
        match ErrorHandler p with
        | Some h => h W _ rw outreq err
        | None => defaultErrorHandler W _ rw outreq err
        end
    | inr res =>
        let rw := http.updHeader (copyHeader (http.ResHeader res)) rw in
        let rw := http.WriteHeader (http.StatusCode res) rw in
        let rw := http.Write (http.ResBody res) rw in
        match http.ResBodyErr res with
        | None => mret (http.Returned rw)
        | Some err =>
            log_Printf (LibraryCopyError err) ;;
            mret (http.Panicked rw http.ErrAbortHandler)
        end
    end.

End httputil.

(** ** The proxy server *)

Inductive result (A : Type) :=
| Ok (a : A)
| Err (msg : string).
Arguments Ok {A} a.
Arguments Err {A} msg.

(** The server; the [*rand.Rand] its [rand] field points to is the
    [rng] of the [World]. *)
Record ProxyServer := mkProxyServer {
  config : Config;
  monolithProxy : httputil.ReverseProxy;
  moviesProxy : httputil.ReverseProxy;
  eventsProxy : httputil.ReverseProxy
}.

(** The custom error handler of [createReverseProxy]. *)
Definition proxyErrorHandler : forall W : Type, http.ResponseWriter W ->
    W -> http.Request -> string -> M (http.Outcome W) :=
  fun W _ w r err =>
    log_Printf (ProxyError err) ;;
    let w := http.WriteHeader http.StatusBadGateway w in
    mret (http.Returned
            (http.Write
               (json.Encode [("error", "Service temporarily unavailable")])
               w)).

(** [createReverseProxy]: a single-host proxy whose director also sets
    the outbound [Host], and whose errors go to the handler above. *)
Definition createReverseProxy (target : url.URL) : httputil.ReverseProxy :=
  let proxy := httputil.NewSingleHostReverseProxy target in
  let originalDirector := httputil.Director proxy in
  {| httputil.Director := fun req =>
       let req := originalDirector req in
       {| http.Method := http.Method req;
          http.URL :=
            {| url.Scheme := url.Scheme target;
               url.Host := url.Host target;
               url.Path := url.Path (http.URL req);
               url.RawQuery := url.RawQuery (http.URL req) |};
          http.Host := url.Host target;
          http.RequestURI := http.RequestURI req;
          http.RemoteAddr := http.RemoteAddr req;
          http.ReqHeader := http.ReqHeader req;
          http.ReqBody := http.ReqBody req |};
     httputil.ErrorHandler := Some proxyErrorHandler |}.

Section Startup.

(** [url.Parse], a library function. *)
Variable url_Parse : string -> result url.URL.

Definition NewProxyServer (config : Config) : result ProxyServer :=
  match url_Parse (MonolithURL config) with
  | Err err => Err ("invalid monolith URL: " ++ err)
  | Ok monolithURL =>
  match url_Parse (MoviesServiceURL config) with
  | Err err => Err ("invalid movies service URL: " ++ err)
  | Ok moviesURL =>
  match url_Parse (EventsServiceURL config) with
  | Err err => Err ("invalid events service URL: " ++ err)
  | Ok eventsURL =>
      Ok {| config := config;
            monolithProxy := createReverseProxy monolithURL;
            moviesProxy := createReverseProxy moviesURL;
            eventsProxy := createReverseProxy eventsURL |}
  end end end.

End Startup.

(** [shouldRouteToNewService]: with gradual migration off every request
    goes to the new service; otherwise a draw below the migration
    percentage does. *)
Definition shouldRouteToNewService (ps : ProxyServer) : M bool :=
  if negb (GradualMigration (config ps)) then mret true
  else
    randomValue ← rand_Intn 100 ;
    mret (randomValue <? MoviesMigrationPercent (config ps)).

Definition handleHealth (ps : ProxyServer) : Handler :=
  fun W _ w r =>
    let w := http.updHeader (http.Header_Set "Content-Type" "text/plain") w in
    let w := http.WriteHeader http.StatusOK w in
    mret (http.Returned (http.Write "Strangler Fig Proxy is healthy" w)).

Definition ServeHTTP (ps : ProxyServer) : Handler :=
  fun W _ w r =>
    let path := url.Path (http.URL r) in
    log_Printf (Incoming (http.Method r) path) ;;
    if String.eqb path "/health" then
      handleHealth ps W _ w r
    else if strings.HasPrefix path "/api/events" then
      log_Printf (RoutingEvents path) ;;
      httputil.ReverseProxy_ServeHTTP (eventsProxy ps) W _ w r
    else if strings.HasPrefix path "/api/movies" then
      toNew ← shouldRouteToNewService ps ;
      if toNew : bool then
        log_Printf (RoutingMovies path (MoviesMigrationPercent (config ps))) ;;
        httputil.ReverseProxy_ServeHTTP (moviesProxy ps) W _ w r
      else
        log_Printf (RoutingMonolith path (MoviesMigrationPercent (config ps))) ;;
        httputil.ReverseProxy_ServeHTTP (monolithProxy ps) W _ w r
    else
      log_Printf (RoutingDefault path) ;;
      httputil.ReverseProxy_ServeHTTP (monolithProxy ps) W _ w r.

(** ** Middleware *)

(** [loggingResponseWriter]: the wrapped writer, and the last status
    code passed to [WriteHeader]. *)
Record loggingResponseWriter (W : Type) := mkLRW {
  inner : W;
  statusCode : Z
}.
Arguments mkLRW {W} inner statusCode.
Arguments inner {W} l.
Arguments statusCode {W} l.

#[export] Instance logging_writer W `{http.ResponseWriter W}
  : http.ResponseWriter (loggingResponseWriter W) := {
  GetHeader lrw := http.GetHeader (inner lrw);
  updHeader f lrw := mkLRW (http.updHeader f (inner lrw)) (statusCode lrw);
  Write data lrw := mkLRW (http.Write data (inner lrw)) (statusCode lrw);
  WriteHeader code lrw := mkLRW (http.WriteHeader code (inner lrw)) code
}.

(** [LoggingMiddleware]. The log line follows the call of [next]
    without a [defer]: a panic in [next] passes through and no line is
    written. *)
Definition LoggingMiddleware (next : Handler) : Handler :=
  fun W _ w r =>
    let lrw := mkLRW w http.StatusOK in
    called ← next (loggingResponseWriter W) _ lrw r ;
    match called with
    | http.Panicked lrw v => mret (http.Panicked (inner lrw) v)
    | http.Returned lrw =>
        log_Printf (Access (http.Method r) (http.RequestURI r)
                           (http.RemoteAddr r) (statusCode lrw)) ;;
        mret (http.Returned (inner lrw))
    end.

Definition CORSMiddleware (next : Handler) : Handler :=
  fun W _ w r =>
    let w := http.updHeader
               (http.Header_Set "Access-Control-Allow-Origin" "*") w in
    let w := http.updHeader
               (http.Header_Set "Access-Control-Allow-Methods"
                                "GET, POST, PUT, DELETE, OPTIONS") w in
    let w := http.updHeader
               (http.Header_Set "Access-Control-Allow-Headers"
                                "Content-Type, Authorization") w in
    if String.eqb (http.Method r) "OPTIONS" then
      mret (http.Returned (http.WriteHeader http.StatusOK w))
    else
      next W _ w r.

(** The handler [main] installs. *)
Definition handler (proxyServer : ProxyServer) : Handler :=
  LoggingMiddleware (CORSMiddleware (ServeHTTP proxyServer)).

(** What the HTTP server does with one request: a fresh writer, the
    handler, and a [200] header if the handler returned without writing
    one; when the handler panicked, the connection is dropped. *)
Definition serve (proxyServer : ProxyServer) (r : http.Request)
  : M http.response :=
  called ← handler proxyServer http.response _ http.newResponse r ;
  match called with
  | http.Returned w =>
      mret (if http.wroteHeader w then w
            else http.response_WriteHeader http.StatusOK w)
  | http.Panicked w _ => mret (http.abort w)
  end.


(** ** The design's vocabulary, for comparison with the code *)

(** The three route categories and the three kinds of backend of the
    design, its route classifier and its migration policy, written after
    the design's own description; the code has no such functions, and the
    theorems below compare [ServeHTTP] with them. *)
Inductive RouteCategory := Events | Movies | Default.

Inductive BackendKind := Monolith | MoviesMicroservice | EventsMicroservice.

Definition classify (path : string) : RouteCategory :=
  if strings.HasPrefix path "/api/events" then Events
  else if strings.HasPrefix path "/api/movies" then Movies
  else Default.

Definition decide (category : RouteCategory) (cfg : Config) : M BackendKind :=
  match category with
  | Events => mret EventsMicroservice
  | Movies =>
      if negb (GradualMigration cfg) then mret MoviesMicroservice
      else
        r ← rand_Intn 100 ;
        mret (if r <? MoviesMigrationPercent cfg then MoviesMicroservice
              else Monolith)
  | Default => mret Monolith
  end.

Definition proxyOf (ps : ProxyServer) (b : BackendKind)
  : httputil.ReverseProxy :=
  match b with
  | Monolith => monolithProxy ps
  | MoviesMicroservice => moviesProxy ps
  | EventsMicroservice => eventsProxy ps
  end.

(** Forwarding a request to one kind of backend. *)
Definition forwardTo (ps : ProxyServer) (b : BackendKind) : Handler :=
  httputil.ReverseProxy_ServeHTTP (proxyOf ps b).

(** The request pipeline of the design: health check, then classify,
    decide (drawing only for a movies request under gradual migration),
    log the decision and forward. *)
Definition pipeline (ps : ProxyServer) : Handler :=
  fun W _ w r =>
    let path := url.Path (http.URL r) in
    let percent := MoviesMigrationPercent (config ps) in
    log_Printf (Incoming (http.Method r) path) ;;
    if String.eqb path "/health" then handleHealth ps W _ w r
    else
      let category := classify path in
      b ← decide category (config ps) ;
      log_Printf match category, b with
                 | Events, _ => RoutingEvents path
                 | Movies, MoviesMicroservice => RoutingMovies path percent
                 | Movies, _ => RoutingMonolith path percent
                 | Default, _ => RoutingDefault path
                 end ;;
      forwardTo ps b W _ w r.

(** The backend the policy chooses for a request, given the state of the
    random source. *)
Definition chosen (ps : ProxyServer) (r : http.Request) (σ : World)
  : BackendKind :=
  fst (decide (classify (url.Path (http.URL r))) (config ps) σ).

(** ** States before and after a step *)

(** The world with more lines in its log. *)
Definition logging (ls : list LogLine) (σ : World) : World :=
  {| rng := rng σ; backend := backend σ; roundTrips := roundTrips σ;
     logged := (logged σ ++ ls)%list |}.

(** The value the next [Intn(100)] gives, and the world after it. *)
Definition draw (σ : World) : Z := fst (rand.Intn 100 (rng σ)).

Definition afterDraw (σ : World) : World :=
  {| rng := snd (rand.Intn 100 (rng σ)); backend := backend σ;
     roundTrips := roundTrips σ; logged := logged σ |}.

(** The world after one round trip for [out]. *)
Definition afterRoundTrip (out : http.Request) (σ : World) : World :=
  {| rng := rng σ; backend := backend σ;
     roundTrips := (roundTrips σ ++ [out])%list; logged := logged σ |}.

(** The CORS headers, as [CORSMiddleware] sets them on a writer. *)
Definition withCORS {W} `{http.ResponseWriter W} (w : W) : W :=
  http.updHeader
    (http.Header_Set "Access-Control-Allow-Headers"
                     "Content-Type, Authorization")
    (http.updHeader
       (http.Header_Set "Access-Control-Allow-Methods"
                        "GET, POST, PUT, DELETE, OPTIONS")
       (http.updHeader
          (http.Header_Set "Access-Control-Allow-Origin" "*") w)).

Definition corsHeaders : http.Header :=
  http.Header_Set "Access-Control-Allow-Headers" "Content-Type, Authorization"
    (http.Header_Set "Access-Control-Allow-Methods"
                     "GET, POST, PUT, DELETE, OPTIONS"
       (http.Header_Set "Access-Control-Allow-Origin" "*" ∅)).

(** The server's answer with a given status and body, sent with the
    headers [h]. *)
Definition answer (h : http.Header) (code : Z) (data : string)
  : http.response :=
  {| http.handlerHeader := h; http.wroteHeader := true; http.status := code;
     http.sentHeader := h; http.interim := []; http.body := data;
     http.aborted := false |}.

(** The body of the error answer, character by character. *)
Definition errorBody : string :=
  "{" ++ String json.dquote "error" ++ String json.dquote ":"
  ++ String json.dquote "Service temporarily unavailable"
  ++ String json.dquote "}" ++ String json.newline EmptyString.

(** ASCII case folding, and the entries of a comma-separated header
    value. *)
Definition toLower (c : ascii) : ascii :=
  let n := N_of_ascii c in
  if ((65 <=? n) && (n <=? 90))%N then ascii_of_N (n + 32) else c.

Fixpoint ToLower (s : string) : string :=
  match s with
  | EmptyString => EmptyString
  | String c s' => String (toLower c) (ToLower s')
  end.

Fixpoint trimLeft (s : string) : string :=
  match s with
  | String " " s' => trimLeft s'
  | _ => s
  end.

Fixpoint splitComma (cur : string) (s : string) : list string :=
  match s with
  | EmptyString => [cur]
  | String "," s' => cur :: splitComma EmptyString s'
  | String c s' => splitComma (cur ++ String c EmptyString) s'
  end.

Definition listValue (v : string) : list string :=
  map trimLeft (splitComma EmptyString v).

(** ** Sample inputs *)

Definition sampleURL (host : string) : url.URL :=
  {| url.Scheme := "http"; url.Host := host; url.Path := EmptyString;
     url.RawQuery := EmptyString |}.

Definition sampleParse (s : string) : result url.URL := Ok (sampleURL s).

Definition sampleConfig (gradual : bool) (percent : Z) : Config :=
  mkConfig "8000" "monolith:8080" "movies:8081" "events:8082" gradual percent.

Definition sampleServer (gradual : bool) (percent : Z) : ProxyServer :=
  {| config := sampleConfig gradual percent;
     monolithProxy := createReverseProxy (sampleURL "monolith:8080");
     moviesProxy := createReverseProxy (sampleURL "movies:8081");
     eventsProxy := createReverseProxy (sampleURL "events:8082") |}.

Definition sampleRequest (method path : string) : http.Request :=
  {| http.Method := method;
     http.URL := {| url.Scheme := EmptyString; url.Host := EmptyString;
                    url.Path := path; url.RawQuery := EmptyString |};
     http.Host := "gateway:8000";
     http.RequestURI := path;
     http.RemoteAddr := "10.0.0.7:51000";
     http.ReqHeader := ∅;
     http.ReqBody := EmptyString |}.

(** A network on which nothing listens, and one on which every backend
    answers [200] with its own host name. *)
Definition unreachable (out : http.Request) : string + http.Response :=
  inl "dial tcp: connection refused".

Definition echoHost (out : http.Request) : string + http.Response :=
  inr {| http.StatusCode := 200; http.ResHeader := ∅;
         http.ResBody := url.Host (http.URL out);
         http.ResBodyErr := None; http.StatusFinal := I |}.

(** A network on which every backend answers [200], sends the first
    three bytes of its body and breaks off. *)
Definition truncating (out : http.Request) : string + http.Response :=
  inr {| http.StatusCode := 200; http.ResHeader := ∅;
         http.ResBody := "par";
         http.ResBodyErr := Some "unexpected EOF"; http.StatusFinal := I |}.

(** A world whose generator yields [first], [first + 37], ... *)
Definition sampleWorld (first : Z)
    (net : http.Request -> string + http.Response) : World :=
  {| rng := rand.mkRand (fun i => first + 37 * Z.of_nat i) 0;
     backend := net; roundTrips := []; logged := [] |}.


(** The server [NewProxyServer] builds, with [sampleParse], from the
    configuration loaded from an environment. *)
Definition envServer (env : gmap string string) : ProxyServer :=
  {| config := loadConfig env;
     monolithProxy := createReverseProxy (sampleURL (MonolithURL (loadConfig env)));
     moviesProxy := createReverseProxy (sampleURL (MoviesServiceURL (loadConfig env)));
     eventsProxy := createReverseProxy (sampleURL (EventsServiceURL (loadConfig env))) |}.

(** The same server under another migration percentage. *)
Definition withPercent (percent : Z) (ps : ProxyServer) : ProxyServer :=
  {| config :=
       {| Port := Port (config ps);
          MonolithURL := MonolithURL (config ps);
          MoviesServiceURL := MoviesServiceURL (config ps);
          EventsServiceURL := EventsServiceURL (config ps);
          GradualMigration := GradualMigration (config ps);
          MoviesMigrationPercent := percent |};
     monolithProxy := monolithProxy ps;
     moviesProxy := moviesProxy ps;
     eventsProxy := eventsProxy ps |}.

Definition clamp (percent : Z) : Z := Z.max 0 (Z.min 100 percent).

(** ** Further vocabulary for the gateway *)

(** Whether serving [r] takes a number from the random source: the
    request gets past the CORS layer, is under [/api/movies], and gradual
    migration is on. *)
Definition draws (ps : ProxyServer) (r : http.Request) : bool :=
  negb (String.eqb (http.Method r) "OPTIONS")
  && strings.HasPrefix (url.Path (http.URL r)) "/api/movies"
  && GradualMigration (config ps).

(** The world in which the response to [r] is decided. *)
Definition deciding (ps : ProxyServer) (r : http.Request) (σ : World) : World :=
  if draws ps r then afterDraw σ else σ.

(** The outbound request for [r]. *)
Definition outbound (ps : ProxyServer) (r : http.Request) (σ : World)
  : http.Request :=
  httputil.Director (proxyOf ps (chosen ps r σ)) r.

(** [http.Error]: a plain-text error answer; a [Content-Length] set for
    other content is dropped. *)
Definition http_Error {W : Type} `{http.ResponseWriter W}
    (w : W) (error : string) (code : Z) : W :=
  let w := http.updHeader (delete "Content-Length") w in
  let w := http.updHeader
             (http.Header_Set "Content-Type" "text/plain; charset=utf-8") w in
  let w := http.updHeader
             (http.Header_Set "X-Content-Type-Options" "nosniff") w in
  let w := http.WriteHeader code w in
  http.Write (error ++ String json.newline EmptyString) w.

(** * The events service

    A shallow embedding of the HTTP side of
    [src/microservices/events/main.go]: the service with its Kafka
    producers, [PublishEvent] and the three event handlers. The consumer
    goroutines are not modelled. The clock, the UUID generator and the
    Kafka brokers are oracles of the state; the JSON codec of the
    structs is a parameter. *)

Module events.

Definition StatusCreated : Z := 201.
Definition StatusBadRequest : Z := 400.
Definition StatusMethodNotAllowed : Z := 405.
Definition StatusInternalServerError : Z := 500.

(** A [float64], by its 64 bits; the service never computes with one. *)
Definition float64 : Type := Z.

(** [time.Time], as seconds and nanoseconds since January 1 of year 1,
    UTC, the zero time. *)
Record Time := mkTime {
  sec : Z;
  nsec : Z
}.

Definition IsZero (t : Time) : bool := (sec t =? 0) && (nsec t =? 0).

Definition Unix (t : Time) : Z := sec t - 62135596800.

Module MovieEvent.
Record t := mk {
  MovieID : Z;
  Title : string;
  Action : string;
  UserID : Z;
  Rating : float64;
  Genres : list string;
  Description : string
}.
End MovieEvent.

Module UserEvent.
Record t := mk {
  UserID : Z;
  Username : string;
  Email : string;
  Action : string;
  Timestamp : Time
}.
End UserEvent.

Module PaymentEvent.
Record t := mk {
  PaymentID : Z;
  UserID : Z;
  Amount : float64;
  Status : string;
  Timestamp : Time;
  MethodType : string
}.
End PaymentEvent.

(** The values the handlers store in [Event.Payload]. *)
Inductive Payload :=
| MoviePayload (e : MovieEvent.t)
| UserPayload (e : UserEvent.t)
| PaymentPayload (e : PaymentEvent.t).

Record Event := mkEvent {
  ID : string;
  Type_ : string;
  Timestamp : Time;
  Payload_ : Payload
}.

Record EventResponse := mkEventResponse {
  Status : string;
  Partition : Z;
  Offset : Z;
  Event_ : Event
}.

Module kafka.

Definition LastOffset : Z := -1.

Inductive Balancer := LeastBytes.

Record Message := mkMessage {
  Key : string;
  Value : string
}.

Record Writer := mkWriter {
  Addr : list string;
  Topic : string;
  WriterBalancer : Balancer
}.

(** A reader, by its configuration. *)
Record Reader := mkReader {
  Brokers : list string;
  ReaderTopic : string;
  GroupID : string;
  StartOffset : Z;
  MaxBytes : Z
}.

(** [kafka.NewReader] panics on a configuration it does not accept; of
    its checks, the one the service's configurations can fail is that
    the list of brokers is not empty. [Err] carries the panic value. *)
Definition NewReader (config : Reader) : result Reader :=
  match Brokers config with
  | [] => Err "cannot create a new kafka reader with an empty list of broker addresses"
  | _ :: _ => Ok config
  end.

End kafka.

Record EventService := mkEventService {
  kafkaBrokers : list string;
  producers : gmap string kafka.Writer;
  consumers : gmap string kafka.Reader
}.

(** [startConsumers]: one reader per topic (the goroutine each reader
    is handed to is not modelled). A panic of [kafka.NewReader] ends the
    loop and the call: [Err] carries the panic value. *)
Definition startConsumers (es : EventService) : result EventService :=
  let topics := ["movie-events"; "user-events"; "payment-events"] in
  foldl (fun started topic =>
           match started with
           | Err v => Err v
           | Ok es =>
               match kafka.NewReader
                       {| kafka.Brokers := kafkaBrokers es;
                          kafka.ReaderTopic := topic;
                          kafka.GroupID := "events-service-group";
                          kafka.StartOffset := kafka.LastOffset;
                          kafka.MaxBytes := 10000000 |} with
               | Err v => Err v
               | Ok reader =>
                   Ok {| kafkaBrokers := kafkaBrokers es;
                         producers := producers es;
                         consumers := <[topic := reader]> (consumers es) |}
               end
           end)
        (Ok es) topics.

(** [NewEventService]; it panics when [startConsumers] does. *)
Definition NewEventService (brokers : list string) : result EventService :=
  let service :=
    {| kafkaBrokers := brokers; producers := ∅; consumers := ∅ |} in
  let topics := ["movie-events"; "user-events"; "payment-events"] in
  let service :=
    foldl (fun service topic =>
             {| kafkaBrokers := kafkaBrokers service;
                producers :=
                  <[topic := {| kafka.Addr := brokers;
                                kafka.Topic := topic;
                                kafka.WriterBalancer := kafka.LeastBytes |}]>
                    (producers service);
                consumers := consumers service |})
          service topics in
  startConsumers service.

(** One constructor per [log.Printf] format of the handlers. *)
Inductive Entry :=
| PublishError (kind err : string)
| PublishedMovie (id action : string) (movieID : Z)
| PublishedUser (id action : string) (userID : Z)
| PublishedPayment (id status : string) (paymentID : Z) (amount : float64).

(** What a handler of the service can touch besides its writer: the
    clock and the UUID generator, each an oracle read one value per
    call; Kafka, which accepts a message for a writer or fails with an
    error; the messages handed to Kafka so far; the log. *)
Record State := mkState {
  clock : nat -> Time;
  ticks : nat;
  uuids : nat -> string;
  issued : nat;
  broker : kafka.Writer -> kafka.Message -> option string;
  written : list (kafka.Writer * kafka.Message);
  journal : list Entry
}.

Definition SM (A : Type) : Type := State -> A * State.

#[export] Instance SM_ret : MRet SM := fun A a s => (a, s).

#[export] Instance SM_bind : MBind SM :=
  fun A B k c s => let '(a, s') := c s in k a s'.

Definition time_Now : SM Time :=
  fun s => (clock s (ticks s),
            {| clock := clock s; ticks := S (ticks s); uuids := uuids s;
               issued := issued s; broker := broker s; written := written s;
               journal := journal s |}).

Definition uuid_New : SM string :=
  fun s => (uuids s (issued s),
            {| clock := clock s; ticks := ticks s; uuids := uuids s;
               issued := S (issued s); broker := broker s;
               written := written s; journal := journal s |}).

(** [kafka.Writer.WriteMessages] with one message. *)
Definition WriteMessages (producer : kafka.Writer) (msg : kafka.Message)
  : SM (option string) :=
  fun s => (broker s producer msg,
            {| clock := clock s; ticks := ticks s; uuids := uuids s;
               issued := issued s; broker := broker s;
               written := (written s ++ [(producer, msg)])%list;
               journal := journal s |}).

Definition logPrintf (l : Entry) : SM unit :=
  fun s => (tt,
            {| clock := clock s; ticks := ticks s; uuids := uuids s;
               issued := issued s; broker := broker s; written := written s;
               journal := (journal s ++ [l])%list |}).

Section Handlers.

(** [encoding/json] on the service's structs: decoding a request body,
    marshalling an event, encoding a response. *)
Variable decodeMovie : string -> result MovieEvent.t.
Variable decodeUser : string -> result UserEvent.t.
Variable decodePayment : string -> result PaymentEvent.t.
Variable marshal : Event -> result string.
Variable encode : EventResponse -> result string.

(** [json.NewEncoder(w).Encode(response)]; the handlers drop its error,
    and nothing is written when encoding fails. *)
Definition Encode {W : Type} `{http.ResponseWriter W}
    (w : W) (response : EventResponse) : W :=
  match encode response with
  | Ok data => http.Write data w
  | Err _ => w
  end.

Definition PublishEvent (es : EventService) (topic : string) (event : Event)
  : SM (result (Z * Z)) :=
  match producers es !! topic with
  | None => mret (Err ("producer for topic " ++ topic ++ " not found"))
  | Some producer =>
      match marshal event with
      | Err err => mret (Err err)
      | Ok eventBytes =>
          let msg := {| kafka.Key := ID event; kafka.Value := eventBytes |} in
          err ← WriteMessages producer msg ;
          match err with
          | Some err => mret (Err err)
          | None =>
              now ← time_Now ;
              mret (Ok (0, Unix now))
          end
      end
  end.

Definition handleMovieEvent (es : EventService) (W : Type)
    (RW : http.ResponseWriter W) (w : W) (r : http.Request) : SM W :=
  if negb (String.eqb (http.Method r) "POST") then
    mret (http_Error w "Method not allowed" StatusMethodNotAllowed)
  else
    match decodeMovie (http.ReqBody r) with
    | Err err => mret (http_Error w err StatusBadRequest)
    | Ok movieEvent =>
        id ← uuid_New ;
        now ← time_Now ;
        let event := {| ID := id; Type_ := "movie"; Timestamp := now;
                        Payload_ := MoviePayload movieEvent |} in
        published ← PublishEvent es "movie-events" event ;
        match published with
        | Err err =>
            logPrintf (PublishError "movie" err) ;;
            mret (http_Error w err StatusInternalServerError)
        | Ok (partition, offset) =>
            logPrintf (PublishedMovie (ID event)
                          (MovieEvent.Action movieEvent)
                          (MovieEvent.MovieID movieEvent)) ;;
            let response := {| Status := "success"; Partition := partition;
                               Offset := offset; Event_ := event |} in
            let w := http.updHeader
                       (http.Header_Set "Content-Type" "application/json") w in
            let w := http.WriteHeader StatusCreated w in
            mret (Encode w response)
        end
    end.

Definition handleUserEvent (es : EventService) (W : Type)
    (RW : http.ResponseWriter W) (w : W) (r : http.Request) : SM W :=
  if negb (String.eqb (http.Method r) "POST") then
    mret (http_Error w "Method not allowed" StatusMethodNotAllowed)
  else
    match decodeUser (http.ReqBody r) with
    | Err err => mret (http_Error w err StatusBadRequest)
    | Ok userEvent =>
        userEvent ←
          (if IsZero (UserEvent.Timestamp userEvent) then
             now ← time_Now ;
             mret {| UserEvent.UserID := UserEvent.UserID userEvent;
                     UserEvent.Username := UserEvent.Username userEvent;
                     UserEvent.Email := UserEvent.Email userEvent;
                     UserEvent.Action := UserEvent.Action userEvent;
                     UserEvent.Timestamp := now |}
           else mret userEvent) ;
        id ← uuid_New ;
        now ← time_Now ;
        let event := {| ID := id; Type_ := "user"; Timestamp := now;
                        Payload_ := UserPayload userEvent |} in
        published ← PublishEvent es "user-events" event ;
        match published with
        | Err err =>
            logPrintf (PublishError "user" err) ;;
            mret (http_Error w err StatusInternalServerError)
        | Ok (partition, offset) =>
            logPrintf (PublishedUser (ID event)
                          (UserEvent.Action userEvent)
                          (UserEvent.UserID userEvent)) ;;
            let response := {| Status := "success"; Partition := partition;
                               Offset := offset; Event_ := event |} in
            let w := http.updHeader
                       (http.Header_Set "Content-Type" "application/json") w in
            let w := http.WriteHeader StatusCreated w in
            mret (Encode w response)
        end
    end.

Definition handlePaymentEvent (es : EventService) (W : Type)
    (RW : http.ResponseWriter W) (w : W) (r : http.Request) : SM W :=
  if negb (String.eqb (http.Method r) "POST") then
    mret (http_Error w "Method not allowed" StatusMethodNotAllowed)
  else
    match decodePayment (http.ReqBody r) with
    | Err err => mret (http_Error w err StatusBadRequest)
    | Ok paymentEvent =>
        paymentEvent ←
          (if IsZero (PaymentEvent.Timestamp paymentEvent) then
             now ← time_Now ;
             mret {| PaymentEvent.PaymentID :=
                       PaymentEvent.PaymentID paymentEvent;
                     PaymentEvent.UserID := PaymentEvent.UserID paymentEvent;
                     PaymentEvent.Amount := PaymentEvent.Amount paymentEvent;
                     PaymentEvent.Status := PaymentEvent.Status paymentEvent;
                     PaymentEvent.Timestamp := now;
                     PaymentEvent.MethodType :=
                       PaymentEvent.MethodType paymentEvent |}
           else mret paymentEvent) ;
        id ← uuid_New ;
        now ← time_Now ;
        let event := {| ID := id; Type_ := "payment"; Timestamp := now;
                        Payload_ := PaymentPayload paymentEvent |} in
        published ← PublishEvent es "payment-events" event ;
        match published with
        | Err err =>
            logPrintf (PublishError "payment" err) ;;
            mret (http_Error w err StatusInternalServerError)
        | Ok (partition, offset) =>
            logPrintf (PublishedPayment (ID event)
                          (PaymentEvent.Status paymentEvent)
                          (PaymentEvent.PaymentID paymentEvent)
                          (PaymentEvent.Amount paymentEvent)) ;;
            let response := {| Status := "success"; Partition := partition;
                               Offset := offset; Event_ := event |} in
            let w := http.updHeader
                       (http.Header_Set "Content-Type" "application/json") w in
            let w := http.WriteHeader StatusCreated w in
            mret (Encode w response)
        end
    end.

End Handlers.

(** The producer [NewEventService] makes for a topic. *)
Definition writerFor (brokers : list string) (topic : string) : kafka.Writer :=
  {| kafka.Addr := brokers; kafka.Topic := topic;
     kafka.WriterBalancer := kafka.LeastBytes |}.

(** The consumer [startConsumers] makes for a topic. *)
Definition readerFor (brokers : list string) (topic : string) : kafka.Reader :=
  {| kafka.Brokers := brokers; kafka.ReaderTopic := topic;
     kafka.GroupID := "events-service-group";
     kafka.StartOffset := kafka.LastOffset; kafka.MaxBytes := 10000000 |}.

(** The service [NewEventService] returns when it returns one. *)
Definition serviceOn (brokers : list string) : EventService :=
  {| kafkaBrokers := brokers;
     producers :=
       <["payment-events" := writerFor brokers "payment-events"]>
         (<["user-events" := writerFor brokers "user-events"]>
            (<["movie-events" := writerFor brokers "movie-events"]> ∅));
     consumers :=
       <["payment-events" := readerFor brokers "payment-events"]>
         (<["user-events" := readerFor brokers "user-events"]>
            (<["movie-events" := readerFor brokers "movie-events"]> ∅)) |}.

(** The three event handlers, with the paths [main] registers them
    under. *)
Definition routes
    (decodeMovie : string -> result MovieEvent.t)
    (decodeUser : string -> result UserEvent.t)
    (decodePayment : string -> result PaymentEvent.t)
    (marshal : Event -> result string)
    (encode : EventResponse -> result string)
  : list (string *
          (EventService -> forall W : Type, http.ResponseWriter W ->
           W -> http.Request -> SM W)) :=
  [("/api/events/movie", handleMovieEvent decodeMovie marshal encode);
   ("/api/events/user", handleUserEvent decodeUser marshal encode);
   ("/api/events/payment", handlePaymentEvent decodePayment marshal encode)].

(** A user event and a payment event as the handlers publish them: with
    the time [now] when the request gave no timestamp. *)
Definition stampedUser (now : Time) (e : UserEvent.t) : UserEvent.t :=
  if IsZero (UserEvent.Timestamp e) then
    {| UserEvent.UserID := UserEvent.UserID e;
       UserEvent.Username := UserEvent.Username e;
       UserEvent.Email := UserEvent.Email e;
       UserEvent.Action := UserEvent.Action e;
       UserEvent.Timestamp := now |}
  else e.

Definition stampedPayment (now : Time) (e : PaymentEvent.t) : PaymentEvent.t :=
  if IsZero (PaymentEvent.Timestamp e) then
    {| PaymentEvent.PaymentID := PaymentEvent.PaymentID e;
       PaymentEvent.UserID := PaymentEvent.UserID e;
       PaymentEvent.Amount := PaymentEvent.Amount e;
       PaymentEvent.Status := PaymentEvent.Status e;
       PaymentEvent.Timestamp := now;
       PaymentEvent.MethodType := PaymentEvent.MethodType e |}
  else e.

(** Sample inputs: a codec that accepts every non-empty body, a clock
    that starts in November 2023, and a Kafka that takes every message
    or none. *)
Definition sampleDecodeMovie (body : string) : result MovieEvent.t :=
  if String.eqb body EmptyString then Err "EOF"
  else Ok (MovieEvent.mk 7 body "viewed" 0 0 [] EmptyString).

Definition sampleDecodeUser (body : string) : result UserEvent.t :=
  if String.eqb body EmptyString then Err "EOF"
  else Ok (UserEvent.mk 3 body EmptyString "login" (mkTime 0 0)).

Definition sampleDecodePayment (body : string) : result PaymentEvent.t :=
  if String.eqb body EmptyString then Err "EOF"
  else Ok (PaymentEvent.mk 11 3 0 body (mkTime 63800000000 0) "card").

Definition sampleMarshal (event : Event) : result string :=
  Ok (Type_ event ++ ":" ++ ID event).

Definition sampleEncode (response : EventResponse) : result string :=
  Ok (Status response ++ ":" ++ ID (Event_ response)).

Definition sampleState (net : kafka.Writer -> kafka.Message -> option string)
  : State :=
  {| clock := fun i => mkTime (63835596800 + Z.of_nat i) 0;
     ticks := 0;
     uuids := fun i => if Nat.eqb i 0 then "uuid-0" else "uuid-n";
     issued := 0;
     broker := net;
     written := [];
     journal := [] |}.

(** The service [NewEventService] makes for the broker [kafka:9092]. *)
Definition sampleService : EventService := serviceOn ["kafka:9092"].

Definition accepting (w : kafka.Writer) (m : kafka.Message) : option string :=
  None.

Definition failing (w : kafka.Writer) (m : kafka.Message) : option string :=
  Some "kafka: broker not available".

Definition samplePost (body : string) : http.Request :=
  {| http.Method := "POST";
     http.URL := {| url.Scheme := EmptyString; url.Host := EmptyString;
                    url.Path := "/api/events/movie";
                    url.RawQuery := EmptyString |};
     http.Host := "events:8082";
     http.RequestURI := "/api/events/movie";
     http.RemoteAddr := "10.0.0.7:51000";
     http.ReqHeader := ∅;
     http.ReqBody := body |}.

End events.

(** * Properties *)

(** ** Prefixes *)

Lemma substring_prefix_inv (p s : string) :
  substring 0 (String.length p) s = p -> exists t, s = p ++ t.
Proof.
  revert s. induction p as [|a p IH]; intros s H.
  - exists s. reflexivity.
  - destruct s as [|b s]; simpl in H; [discriminate|].
    injection H as -> H. destruct (IH _ H) as [t ->].
    exists t. reflexivity.
Qed.

Lemma HasPrefix_inv (s p : string) :
  strings.HasPrefix s p = true -> exists t, s = p ++ t.
Proof.
  unfold strings.HasPrefix. intros H.
  apply andb_prop in H as [_ H]. apply String.eqb_eq in H.
  exact (substring_prefix_inv _ _ H).
Qed.

Lemma substring_app_prefix (p t : string) :
  substring 0 (String.length p) (p ++ t) = p.
Proof.
  induction p as [|a p IH]; simpl.
  - destruct t; reflexivity.
  - rewrite IH. reflexivity.
Qed.

Lemma length_app_le (p t : string) :
  (String.length p <= String.length (p ++ t))%nat.
Proof. induction p as [|a p IH]; simpl; lia. Qed.

Lemma HasPrefix_app (p t : string) : strings.HasPrefix (p ++ t) p = true.
Proof.
  unfold strings.HasPrefix. apply andb_true_intro. split.
  - apply Nat.leb_le. apply length_app_le.
  - rewrite substring_app_prefix. apply String.eqb_refl.
Qed.

(** A path under [/api/movies] is not under [/api/events], and neither
    kind of path is the health-check path. *)
Lemma movies_not_events (path : string) :
  strings.HasPrefix path "/api/movies" = true ->
  strings.HasPrefix path "/api/events" = false.
Proof. intros H. apply HasPrefix_inv in H as [t ->]. reflexivity. Qed.

Lemma movies_not_health (path : string) :
  strings.HasPrefix path "/api/movies" = true ->
  String.eqb path "/health" = false.
Proof. intros H. apply HasPrefix_inv in H as [t ->]. reflexivity. Qed.

Lemma events_not_health (path : string) :
  strings.HasPrefix path "/api/events" = true ->
  String.eqb path "/health" = false.
Proof. intros H. apply HasPrefix_inv in H as [t ->]. reflexivity. Qed.

(** ** The random source *)

Lemma draw_range (σ : World) : 0 <= draw σ < 100.
Proof. unfold draw, rand.Intn. simpl. apply Z.mod_pos_bound. lia. Qed.

(** Every value of the range is some generator's next draw. *)
Lemma draw_any (v : Z) (net : http.Request -> string + http.Response) :
  0 <= v < 100 -> draw (sampleWorld v net) = v.
Proof.
  intros H. unfold draw, sampleWorld, rand.Intn. simpl.
  rewrite Z.add_0_r. apply Z.mod_small. exact H.
Qed.

(** ** The branches of [ServeHTTP] *)

Section Branches.

Context (ps : ProxyServer) (W : Type) (RW : http.ResponseWriter W).
Implicit Types (w : W) (r : http.Request) (σ : World).

Lemma ServeHTTP_events w r σ :
  strings.HasPrefix (url.Path (http.URL r)) "/api/events" = true ->
  ServeHTTP ps W RW w r σ =
  httputil.ReverseProxy_ServeHTTP (eventsProxy ps) W RW w r
    (logging [Incoming (http.Method r) (url.Path (http.URL r));
              RoutingEvents (url.Path (http.URL r))] σ).
Proof.
  intros He. unfold ServeHTTP, mbind, M_bind. simpl.
  rewrite (events_not_health _ He), He.
  unfold logging. simpl. rewrite <- app_assoc. reflexivity.
Qed.

Lemma ServeHTTP_default w r σ :
  String.eqb (url.Path (http.URL r)) "/health" = false ->
  strings.HasPrefix (url.Path (http.URL r)) "/api/events" = false ->
  strings.HasPrefix (url.Path (http.URL r)) "/api/movies" = false ->
  ServeHTTP ps W RW w r σ =
  httputil.ReverseProxy_ServeHTTP (monolithProxy ps) W RW w r
    (logging [Incoming (http.Method r) (url.Path (http.URL r));
              RoutingDefault (url.Path (http.URL r))] σ).
Proof.
  intros Hh He Hm. unfold ServeHTTP, mbind, M_bind. simpl.
  rewrite Hh, He, Hm.
  unfold logging. simpl. rewrite <- app_assoc. reflexivity.
Qed.

Lemma ServeHTTP_movies w r σ :
  strings.HasPrefix (url.Path (http.URL r)) "/api/movies" = true ->
  ServeHTTP ps W RW w r σ =
  if negb (GradualMigration (config ps)) then
    httputil.ReverseProxy_ServeHTTP (moviesProxy ps) W RW w r
      (logging [Incoming (http.Method r) (url.Path (http.URL r));
                RoutingMovies (url.Path (http.URL r))
                              (MoviesMigrationPercent (config ps))] σ)
  else if draw σ <? MoviesMigrationPercent (config ps) then
    httputil.ReverseProxy_ServeHTTP (moviesProxy ps) W RW w r
      (logging [Incoming (http.Method r) (url.Path (http.URL r));
                RoutingMovies (url.Path (http.URL r))
                              (MoviesMigrationPercent (config ps))]
               (afterDraw σ))
  else
    httputil.ReverseProxy_ServeHTTP (monolithProxy ps) W RW w r
      (logging [Incoming (http.Method r) (url.Path (http.URL r));
                RoutingMonolith (url.Path (http.URL r))
                                (MoviesMigrationPercent (config ps))]
               (afterDraw σ)).
Proof.
  intros Hm. unfold ServeHTTP, shouldRouteToNewService, mbind, M_bind. simpl.
  rewrite (movies_not_health _ Hm), (movies_not_events _ Hm), Hm.
  destruct (GradualMigration (config ps)); simpl.
  - unfold draw, rand.Intn. simpl.
    destruct (_ <? _); unfold logging, afterDraw; simpl;
      rewrite <- app_assoc; reflexivity.
  - unfold logging. simpl. rewrite <- app_assoc. reflexivity.
Qed.

End Branches.

(** ** Routing of the three kinds of path *)

(** C1. A request under [/api/movies] follows the migration policy: with
    gradual migration off it goes to the movies microservice and no
    number is drawn; with gradual migration on, one number [r] is drawn
    from the server's random source, [0 <= r < 100], and the request
    goes to the movies microservice when [r] is below the migration
    percentage and to the monolith otherwise. *)
Theorem movies_follow_migration_policy
    (ps : ProxyServer) (W : Type) (RW : http.ResponseWriter W)
    (w : W) (r : http.Request) (σ : World) :
  strings.HasPrefix (url.Path (http.URL r)) "/api/movies" = true ->
  (GradualMigration (config ps) = false ->
   ServeHTTP ps W RW w r σ =
   forwardTo ps MoviesMicroservice W RW w r
     (logging [Incoming (http.Method r) (url.Path (http.URL r));
               RoutingMovies (url.Path (http.URL r))
                             (MoviesMigrationPercent (config ps))] σ))
  /\
  (GradualMigration (config ps) = true ->
   0 <= draw σ < 100
   /\ (draw σ < MoviesMigrationPercent (config ps) ->
       ServeHTTP ps W RW w r σ =
       forwardTo ps MoviesMicroservice W RW w r
         (logging [Incoming (http.Method r) (url.Path (http.URL r));
                   RoutingMovies (url.Path (http.URL r))
                                 (MoviesMigrationPercent (config ps))]
                  (afterDraw σ)))
   /\ (MoviesMigrationPercent (config ps) <= draw σ ->
       ServeHTTP ps W RW w r σ =
       forwardTo ps Monolith W RW w r
         (logging [Incoming (http.Method r) (url.Path (http.URL r));
                   RoutingMonolith (url.Path (http.URL r))
                                   (MoviesMigrationPercent (config ps))]
                  (afterDraw σ)))).
Proof.
  intros Hm. rewrite (ServeHTTP_movies ps W RW w r σ Hm).
  unfold forwardTo. simpl. split.
  - intros ->. reflexivity.
  - intros ->. simpl. split; [apply draw_range|]. split; intros Hlt.
    + apply Z.ltb_lt in Hlt. rewrite Hlt. reflexivity.
    + apply Z.ltb_ge in Hlt. rewrite Hlt. reflexivity.
Qed.

Lemma movies_follow_migration_policy_witness :
  strings.HasPrefix
    (url.Path (http.URL (sampleRequest "GET" "/api/movies/42")))
    "/api/movies" = true
  /\ draw (sampleWorld 7 echoHost) = 7
  /\ ServeHTTP (sampleServer true 50) http.response _ http.newResponse
       (sampleRequest "GET" "/api/movies/42") (sampleWorld 7 echoHost) =
     forwardTo (sampleServer true 50) MoviesMicroservice
       http.response _ http.newResponse
       (sampleRequest "GET" "/api/movies/42")
       (logging [Incoming "GET" "/api/movies/42";
                 RoutingMovies "/api/movies/42" 50]
                (afterDraw (sampleWorld 7 echoHost))).
Proof.
  split; [reflexivity|]. split; [reflexivity|].
  destruct (movies_follow_migration_policy (sampleServer true 50)
              http.response _ http.newResponse
              (sampleRequest "GET" "/api/movies/42")
              (sampleWorld 7 echoHost) eq_refl) as [_ H].
  destruct (H eq_refl) as (_ & Hnew & _).
  apply Hnew. reflexivity.
Defined.

(** C2. A request under [/api/events] goes to the events microservice,
    for every configuration (any migration percentage, gradual migration
    on or off) and every state of the random source, from which nothing
    is drawn. *)
Theorem events_always_to_events_service
    (ps : ProxyServer) (W : Type) (RW : http.ResponseWriter W)
    (w : W) (r : http.Request) (σ : World) :
  strings.HasPrefix (url.Path (http.URL r)) "/api/events" = true ->
  ServeHTTP ps W RW w r σ =
  forwardTo ps EventsMicroservice W RW w r
    (logging [Incoming (http.Method r) (url.Path (http.URL r));
              RoutingEvents (url.Path (http.URL r))] σ).
Proof. intros He. exact (ServeHTTP_events ps W RW w r σ He). Qed.

Lemma events_always_to_events_service_witness :
  strings.HasPrefix
    (url.Path (http.URL (sampleRequest "POST" "/api/events/movie")))
    "/api/events" = true
  /\ ServeHTTP (sampleServer true 0) http.response _ http.newResponse
       (sampleRequest "POST" "/api/events/movie") (sampleWorld 99 echoHost) =
     forwardTo (sampleServer true 0) EventsMicroservice
       http.response _ http.newResponse
       (sampleRequest "POST" "/api/events/movie")
       (logging [Incoming "POST" "/api/events/movie";
                 RoutingEvents "/api/events/movie"]
                (sampleWorld 99 echoHost)).
Proof.
  split; [reflexivity|].
  apply (events_always_to_events_service (sampleServer true 0)
           http.response _ http.newResponse
           (sampleRequest "POST" "/api/events/movie")
           (sampleWorld 99 echoHost)).
  reflexivity.
Defined.

(** C3. A request whose path is not the health-check path and is under
    neither [/api/events] nor [/api/movies] goes to the monolith, for
    every configuration and every state of the random source. *)
Theorem other_paths_to_monolith
    (ps : ProxyServer) (W : Type) (RW : http.ResponseWriter W)
    (w : W) (r : http.Request) (σ : World) :
  url.Path (http.URL r) <> "/health" ->
  strings.HasPrefix (url.Path (http.URL r)) "/api/events" = false ->
  strings.HasPrefix (url.Path (http.URL r)) "/api/movies" = false ->
  ServeHTTP ps W RW w r σ =
  forwardTo ps Monolith W RW w r
    (logging [Incoming (http.Method r) (url.Path (http.URL r));
              RoutingDefault (url.Path (http.URL r))] σ).
Proof.
  intros Hh He Hm. apply String.eqb_neq in Hh.
  exact (ServeHTTP_default ps W RW w r σ Hh He Hm).
Qed.

Lemma other_paths_to_monolith_witness :
  url.Path (http.URL (sampleRequest "GET" "/api/users")) <> "/health"
  /\ strings.HasPrefix
       (url.Path (http.URL (sampleRequest "GET" "/api/users")))
       "/api/events" = false
  /\ strings.HasPrefix
       (url.Path (http.URL (sampleRequest "GET" "/api/users")))
       "/api/movies" = false
  /\ ServeHTTP (sampleServer false 100) http.response _ http.newResponse
       (sampleRequest "GET" "/api/users") (sampleWorld 0 echoHost) =
     forwardTo (sampleServer false 100) Monolith
       http.response _ http.newResponse
       (sampleRequest "GET" "/api/users")
       (logging [Incoming "GET" "/api/users"; RoutingDefault "/api/users"]
                (sampleWorld 0 echoHost)).
Proof.
  split; [discriminate|]. split; [reflexivity|]. split; [reflexivity|].
  apply (other_paths_to_monolith (sampleServer false 100)
           http.response _ http.newResponse
           (sampleRequest "GET" "/api/users") (sampleWorld 0 echoHost)).
  - discriminate.
  - reflexivity.
  - reflexivity.
Defined.

(** C5. Under gradual migration, a migration percentage of 0 sends every
    request under [/api/movies] to the monolith, and a migration
    percentage of 100 sends every such request to the movies
    microservice, whatever number is drawn. *)
Theorem percent_0_and_100
    (ps : ProxyServer) (W : Type) (RW : http.ResponseWriter W)
    (w : W) (r : http.Request) (σ : World) :
  strings.HasPrefix (url.Path (http.URL r)) "/api/movies" = true ->
  GradualMigration (config ps) = true ->
  (MoviesMigrationPercent (config ps) = 0 ->
   ServeHTTP ps W RW w r σ =
   forwardTo ps Monolith W RW w r
     (logging [Incoming (http.Method r) (url.Path (http.URL r));
               RoutingMonolith (url.Path (http.URL r)) 0] (afterDraw σ)))
  /\
  (MoviesMigrationPercent (config ps) = 100 ->
   ServeHTTP ps W RW w r σ =
   forwardTo ps MoviesMicroservice W RW w r
     (logging [Incoming (http.Method r) (url.Path (http.URL r));
               RoutingMovies (url.Path (http.URL r)) 100] (afterDraw σ))).
Proof.
  intros Hm Hg. rewrite (ServeHTTP_movies ps W RW w r σ Hm), Hg. simpl.
  pose proof (draw_range σ) as Hr. unfold forwardTo. simpl.
  split; intros ->.
  - destruct (Z.ltb_spec (draw σ) 0); [lia | reflexivity].
  - destruct (Z.ltb_spec (draw σ) 100); [reflexivity | lia].
Qed.

Lemma percent_0_and_100_witness :
  strings.HasPrefix
    (url.Path (http.URL (sampleRequest "GET" "/api/movies")))
    "/api/movies" = true
  /\ GradualMigration (config (sampleServer true 0)) = true
  /\ ServeHTTP (sampleServer true 0) http.response _ http.newResponse
       (sampleRequest "GET" "/api/movies") (sampleWorld 0 echoHost) =
     forwardTo (sampleServer true 0) Monolith
       http.response _ http.newResponse
       (sampleRequest "GET" "/api/movies")
       (logging [Incoming "GET" "/api/movies";
                 RoutingMonolith "/api/movies" 0]
                (afterDraw (sampleWorld 0 echoHost))).
Proof.
  split; [reflexivity|]. split; [reflexivity|].
  destruct (percent_0_and_100 (sampleServer true 0)
              http.response _ http.newResponse
              (sampleRequest "GET" "/api/movies")
              (sampleWorld 0 echoHost) eq_refl eq_refl) as [H0 _].
  apply H0. reflexivity.
Defined.

(** ** The middleware chain *)

Lemma handler_options (ps : ProxyServer) (W : Type)
    (RW : http.ResponseWriter W) (w : W) (r : http.Request) (σ : World) :
  http.Method r = "OPTIONS" ->
  handler ps W RW w r σ =
  (http.Returned (http.WriteHeader http.StatusOK (withCORS w)),
   logging [Access (http.Method r) (http.RequestURI r) (http.RemoteAddr r)
                   http.StatusOK] σ).
Proof.
  intros Hm. unfold handler, LoggingMiddleware, CORSMiddleware, mbind, M_bind.
  rewrite Hm. reflexivity.
Qed.

Lemma handler_passes (ps : ProxyServer) (W : Type)
    (RW : http.ResponseWriter W) (w : W) (r : http.Request) (σ : World) :
  http.Method r <> "OPTIONS" ->
  handler ps W RW w r σ =
  let '(called, σ') :=
    ServeHTTP ps (loggingResponseWriter W) _
              (mkLRW (withCORS w) http.StatusOK) r σ in
  match called with
  | http.Returned lrw =>
      (http.Returned (inner lrw),
       logging [Access (http.Method r) (http.RequestURI r)
                       (http.RemoteAddr r) (statusCode lrw)] σ')
  | http.Panicked lrw v => (http.Panicked (inner lrw) v, σ')
  end.
Proof.
  intros Hm. apply String.eqb_neq in Hm.
  unfold handler, LoggingMiddleware, CORSMiddleware, mbind, M_bind.
  rewrite Hm. simpl.
  destruct (ServeHTTP ps _ _ _ r σ) as [[lrw|lrw v] σ']; reflexivity.
Qed.

(** C6. An [OPTIONS] request to any path is answered [200] with the
    three CORS headers: any origin, the methods GET, POST, PUT, DELETE
    and OPTIONS, the headers Content-Type and Authorization. The handler
    chain stops at the CORS layer: no round trip to a backend is made,
    nothing is drawn, and the only log line is the access line. *)
Theorem options_short_circuit
    (ps : ProxyServer) (r : http.Request) (σ : World) :
  http.Method r = "OPTIONS" ->
  serve ps r σ =
    (answer corsHeaders 200 EmptyString,
     logging [Access "OPTIONS" (http.RequestURI r) (http.RemoteAddr r) 200] σ)
  /\ roundTrips (snd (serve ps r σ)) = roundTrips σ
  /\ http.status (fst (serve ps r σ)) = 200
  /\ http.Header_Get "Access-Control-Allow-Origin"
       (http.sentHeader (fst (serve ps r σ))) = "*"
  /\ listValue (http.Header_Get "Access-Control-Allow-Methods"
                  (http.sentHeader (fst (serve ps r σ))))
     = ["GET"; "POST"; "PUT"; "DELETE"; "OPTIONS"]
  /\ listValue (http.Header_Get "Access-Control-Allow-Headers"
                  (http.sentHeader (fst (serve ps r σ))))
     = ["Content-Type"; "Authorization"]
  /\ dom (http.sentHeader (fst (serve ps r σ)))
     = {[ "Access-Control-Allow-Origin"; "Access-Control-Allow-Methods";
          "Access-Control-Allow-Headers" ]}.
Proof.
  intros Hm.
  assert (Hs : serve ps r σ =
    (answer corsHeaders 200 EmptyString,
     logging [Access "OPTIONS" (http.RequestURI r) (http.RemoteAddr r) 200] σ)).
  { unfold serve, mbind, M_bind.
    rewrite (handler_options ps _ _ http.newResponse r σ Hm), Hm.
    reflexivity. }
  rewrite Hs. simpl. split; [reflexivity|]. split; [reflexivity|].
  split; [reflexivity|].
  split; [vm_compute; reflexivity|].
  split; [vm_compute; reflexivity|].
  split; [vm_compute; reflexivity|].
  unfold corsHeaders, http.Header_Set.
  rewrite !dom_insert_L, dom_empty_L. set_solver.
Qed.

Lemma options_short_circuit_witness :
  http.Method (sampleRequest "OPTIONS" "/api/movies") = "OPTIONS"
  /\ roundTrips (snd (serve (sampleServer true 50)
                        (sampleRequest "OPTIONS" "/api/movies")
                        (sampleWorld 3 unreachable))) = []
  /\ http.status (fst (serve (sampleServer true 50)
                         (sampleRequest "OPTIONS" "/api/movies")
                         (sampleWorld 3 unreachable))) = 200.
Proof.
  split; [reflexivity|].
  destruct (options_short_circuit (sampleServer true 50)
              (sampleRequest "OPTIONS" "/api/movies")
              (sampleWorld 3 unreachable) eq_refl)
    as (_ & Hrt & Hst & _).
  split; [exact Hrt | exact Hst].
Defined.

(** C7. A [GET] request for the health-check path is answered [200]
    with the fixed plain-text body. [ServeHTTP] returns before any
    routing: no routing line is logged, nothing is drawn from the random
    source, and no round trip to a backend is made. *)
Theorem health_short_circuit
    (ps : ProxyServer) (r : http.Request) (σ : World) :
  http.Method r = "GET" ->
  url.Path (http.URL r) = "/health" ->
  serve ps r σ =
    (answer (http.Header_Set "Content-Type" "text/plain" corsHeaders) 200
            "Strangler Fig Proxy is healthy",
     logging [Incoming "GET" "/health";
              Access "GET" (http.RequestURI r) (http.RemoteAddr r) 200] σ)
  /\ http.status (fst (serve ps r σ)) = 200
  /\ http.body (fst (serve ps r σ)) = "Strangler Fig Proxy is healthy"
  /\ http.Header_Get "Content-Type" (http.sentHeader (fst (serve ps r σ)))
     = "text/plain"
  /\ roundTrips (snd (serve ps r σ)) = roundTrips σ
  /\ rng (snd (serve ps r σ)) = rng σ.
Proof.
  intros Hm Hp.
  assert (Hs : serve ps r σ =
    (answer (http.Header_Set "Content-Type" "text/plain" corsHeaders) 200
            "Strangler Fig Proxy is healthy",
     logging [Incoming "GET" "/health";
              Access "GET" (http.RequestURI r) (http.RemoteAddr r) 200] σ)).
  { unfold serve, mbind, M_bind.
    rewrite (handler_passes ps _ _ http.newResponse r σ)
      by (rewrite Hm; discriminate).
    unfold ServeHTTP, mbind, M_bind. rewrite Hp, Hm. simpl.
    unfold logging. simpl. rewrite <- app_assoc. reflexivity. }
  rewrite Hs. simpl. split; [reflexivity|]. split; [reflexivity|].
  split; [reflexivity|]. split; [vm_compute; reflexivity|].
  split; reflexivity.
Qed.

Lemma health_short_circuit_witness :
  http.Method (sampleRequest "GET" "/health") = "GET"
  /\ url.Path (http.URL (sampleRequest "GET" "/health")) = "/health"
  /\ http.body (fst (serve (sampleServer true 50)
                       (sampleRequest "GET" "/health")
                       (sampleWorld 3 unreachable)))
     = "Strangler Fig Proxy is healthy"
  /\ roundTrips (snd (serve (sampleServer true 50)
                        (sampleRequest "GET" "/health")
                        (sampleWorld 3 unreachable))) = [].
Proof.
  split; [reflexivity|]. split; [reflexivity|].
  destruct (health_short_circuit (sampleServer true 50)
              (sampleRequest "GET" "/health")
              (sampleWorld 3 unreachable) eq_refl eq_refl)
    as (_ & _ & Hb & _ & Hrt & _).
  split; [exact Hb | exact Hrt].
Defined.

(** ** Forwarding and its failure *)

Lemma NewProxyServer_inv (parse : string -> result url.URL)
    (cfg : Config) (ps : ProxyServer) :
  NewProxyServer parse cfg = Ok ps ->
  exists monolithURL moviesURL eventsURL,
    ps = {| config := cfg;
            monolithProxy := createReverseProxy monolithURL;
            moviesProxy := createReverseProxy moviesURL;
            eventsProxy := createReverseProxy eventsURL |}.
Proof.
  unfold NewProxyServer. intros H.
  destruct (parse (MonolithURL cfg)) as [tm|]; [|discriminate].
  destruct (parse (MoviesServiceURL cfg)) as [tv|]; [|discriminate].
  destruct (parse (EventsServiceURL cfg)) as [te|]; [|discriminate].
  injection H as <-. exists tm, tv, te. reflexivity.
Qed.

Lemma NewProxyServer_proxyOf (parse : string -> result url.URL)
    (cfg : Config) (ps : ProxyServer) (b : BackendKind) :
  NewProxyServer parse cfg = Ok ps ->
  exists target, proxyOf ps b = createReverseProxy target.
Proof.
  intros H. destruct (NewProxyServer_inv _ _ _ H) as (tm & tv & te & ->).
  destruct b; simpl; eauto.
Qed.

(** What a proxy built by [createReverseProxy] does with a request: one
    call of the transport, then the error answer, the relayed response,
    or the relayed start of a response and a panic. *)
Lemma createReverseProxy_ServeHTTP (target : url.URL) (W : Type)
    (RW : http.ResponseWriter W) (w : W) (r : http.Request) (σ : World) :
  httputil.ReverseProxy_ServeHTTP (createReverseProxy target) W RW w r σ =
  match backend σ (httputil.Director (createReverseProxy target) r) with
  | inl err =>
      (http.Returned
         (http.Write
            (json.Encode [("error", "Service temporarily unavailable")])
            (http.WriteHeader http.StatusBadGateway w)),
       logging [ProxyError err]
         (afterRoundTrip (httputil.Director (createReverseProxy target) r) σ))
  | inr res =>
      match http.ResBodyErr res with
      | None =>
          (http.Returned
             (http.Write (http.ResBody res)
                (http.WriteHeader (http.StatusCode res)
                   (http.updHeader
                      (httputil.copyHeader (http.ResHeader res)) w))),
           afterRoundTrip
             (httputil.Director (createReverseProxy target) r) σ)
      | Some err =>
          (http.Panicked
             (http.Write (http.ResBody res)
                (http.WriteHeader (http.StatusCode res)
                   (http.updHeader
                      (httputil.copyHeader (http.ResHeader res)) w)))
             http.ErrAbortHandler,
           logging [LibraryCopyError err]
             (afterRoundTrip
                (httputil.Director (createReverseProxy target) r) σ))
      end
  end.
Proof.
  unfold httputil.ReverseProxy_ServeHTTP, RoundTrip, mbind, M_bind.
  destruct (backend σ _) as [err|res]; [reflexivity|]. simpl.
  destruct (http.ResBodyErr res); reflexivity.
Qed.

(** Writing a final status on the fresh writer, behind the CORS layer or
    not, fixes that status. *)
Lemma final_is_valid (code : Z) :
  Is_true (http.finalStatus code) ->
  http.checkWriteHeaderCode code = true
  /\ ((code <=? 199) && negb (code =? 101)) = false.
Proof.
  unfold http.finalStatus, http.checkWriteHeaderCode. intros H.
  apply Is_true_eq_true in H. apply andb_prop in H as [H1 H2].
  apply Z.leb_le in H1. apply Z.leb_le in H2. split.
  - apply andb_true_intro. split; apply Z.leb_le; lia.
  - apply andb_false_intro1. apply Z.leb_gt. lia.
Qed.

(** Every request that is not the health check is forwarded to the
    backend the policy chooses, in a world with the same network and the
    same round trips so far. *)
Lemma ServeHTTP_forwards (ps : ProxyServer) (W : Type)
    (RW : http.ResponseWriter W) (w : W) (r : http.Request) (σ : World) :
  url.Path (http.URL r) <> "/health" ->
  exists σ1,
    ServeHTTP ps W RW w r σ = forwardTo ps (chosen ps r σ) W RW w r σ1
    /\ backend σ1 = backend σ /\ roundTrips σ1 = roundTrips σ.
Proof.
  intros Hh. apply String.eqb_neq in Hh. unfold chosen, classify.
  destruct (strings.HasPrefix (url.Path (http.URL r)) "/api/events") eqn:He.
  { eexists. split; [|split].
    - apply (ServeHTTP_events ps W RW w r σ He).
    - reflexivity.
    - reflexivity. }
  destruct (strings.HasPrefix (url.Path (http.URL r)) "/api/movies") eqn:Hm.
  { rewrite (ServeHTTP_movies ps W RW w r σ Hm).
    unfold decide, draw, mbind, M_bind, rand_Intn, rand.Intn. simpl.
    destruct (negb _); simpl.
    - eexists. repeat split.
    - destruct (_ <? _); simpl; eexists; repeat split. }
  eexists. split; [|split].
  - apply (ServeHTTP_default ps W RW w r σ Hh He Hm).
  - reflexivity.
  - reflexivity.
Qed.

Lemma WriteHeader_final (w : http.response) (code : Z) :
  http.aborted w = false -> http.wroteHeader w = false ->
  Is_true (http.finalStatus code) ->
  http.response_WriteHeader code w =
  {| http.handlerHeader := http.handlerHeader w; http.wroteHeader := true;
     http.status := code; http.sentHeader := http.handlerHeader w;
     http.interim := http.interim w; http.body := http.body w;
     http.aborted := false |}.
Proof.
  intros Ha Hw Hf. destruct (final_is_valid _ Hf) as [Hv Hi].
  unfold http.response_WriteHeader. rewrite Ha, Hw, Hv, Hi. reflexivity.
Qed.

Lemma Write_after_header (w : http.response) (data : string) :
  http.aborted w = false -> http.wroteHeader w = true ->
  http.response_Write data w =
  {| http.handlerHeader := http.handlerHeader w; http.wroteHeader := true;
     http.status := http.status w; http.sentHeader := http.sentHeader w;
     http.interim := http.interim w; http.body := http.body w ++ data;
     http.aborted := false |}.
Proof.
  intros Ha Hw. unfold http.response_Write. rewrite Ha, Hw.
  cbn [http.handlerHeader]. rewrite Ha, Hw. reflexivity.
Qed.

Lemma withCORS_fresh :
  withCORS http.newResponse =
  {| http.handlerHeader := corsHeaders; http.wroteHeader := false;
     http.status := 0; http.sentHeader := ∅; http.interim := [];
     http.body := EmptyString; http.aborted := false |}.
Proof. reflexivity. Qed.

Lemma relay_on_fresh (res : http.Response) :
  http.Write (http.ResBody res)
    (http.WriteHeader (http.StatusCode res)
       (http.updHeader (httputil.copyHeader (http.ResHeader res))
          (mkLRW (withCORS http.newResponse) http.StatusOK)))
  = mkLRW (answer (httputil.copyHeader (http.ResHeader res) corsHeaders)
                  (http.StatusCode res) (http.ResBody res))
          (http.StatusCode res).
Proof.
  rewrite withCORS_fresh.
  cbn [http.Write http.WriteHeader http.updHeader logging_writer
       http.response_writer inner statusCode http.aborted].
  rewrite WriteHeader_final by (reflexivity || exact (http.StatusFinal res)).
  rewrite Write_after_header by reflexivity.
  reflexivity.
Qed.

(** C8, as the code has it. For a server built by [NewProxyServer] and
    a request that is neither [OPTIONS] nor the health check, the proxy
    calls the transport once, for the backend the policy chooses, and
    calls no other backend. When that call returns an error, which is
    before any response header, the caller gets status [502] and the
    JSON object whose only key is [error], with value
    [Service temporarily unavailable], and the error is logged. When the
    backend's response breaks after its headers, no [502] is sent: the
    backend's status and the bytes that arrived have been written, the
    handler panics and the connection is dropped. *)
Theorem forward_failure_502_or_abort
    (parse : string -> result url.URL) (cfg : Config) (ps : ProxyServer)
    (r : http.Request) (σ : World) :
  NewProxyServer parse cfg = Ok ps ->
  http.Method r <> "OPTIONS" ->
  url.Path (http.URL r) <> "/health" ->
  roundTrips (snd (serve ps r σ)) =
    (roundTrips σ ++ [httputil.Director (proxyOf ps (chosen ps r σ)) r])%list
  /\ (forall err,
        backend σ (httputil.Director (proxyOf ps (chosen ps r σ)) r)
        = inl err ->
        http.status (fst (serve ps r σ)) = 502
        /\ http.body (fst (serve ps r σ)) =
           json.Encode [("error", "Service temporarily unavailable")]
        /\ http.body (fst (serve ps r σ)) = errorBody
        /\ http.aborted (fst (serve ps r σ)) = false
        /\ In (ProxyError err) (logged (snd (serve ps r σ))))
  /\ (forall res err,
        backend σ (httputil.Director (proxyOf ps (chosen ps r σ)) r)
        = inr res ->
        http.ResBodyErr res = Some err ->
        http.aborted (fst (serve ps r σ)) = true
        /\ http.status (fst (serve ps r σ)) = http.StatusCode res
        /\ http.body (fst (serve ps r σ)) = http.ResBody res
        /\ In (LibraryCopyError err) (logged (snd (serve ps r σ)))).
Proof.
  intros Hnew Hm Hh.
  destruct (ServeHTTP_forwards ps _ _
              (mkLRW (withCORS http.newResponse) http.StatusOK) r σ Hh)
    as (σ1 & Heq & Hnet & Hrt).
  destruct (NewProxyServer_proxyOf parse cfg ps (chosen ps r σ) Hnew)
    as [target Hpx].
  unfold serve, mbind, M_bind.
  rewrite (handler_passes ps _ _ http.newResponse r σ Hm), Heq.
  unfold forwardTo. rewrite Hpx, createReverseProxy_ServeHTTP, Hnet.
  destruct (backend σ _) as [e|res] eqn:Hb.
  - simpl. split; [rewrite Hrt; reflexivity|]. split; [|discriminate].
    intros err [= <-]. repeat split.
    rewrite !in_app_iff. left. right. left. reflexivity.
  - rewrite relay_on_fresh.
    destruct (http.ResBodyErr res) as [e|] eqn:He;
      cbn [fst snd inner statusCode mret M_ret answer http.abort
           http.wroteHeader http.status http.body http.aborted
           logging afterRoundTrip roundTrips logged].
    + split; [rewrite Hrt; reflexivity|]. split; [discriminate|].
      intros res' err [= <-] He'. rewrite He in He'. injection He' as <-.
      repeat split. rewrite in_app_iff. right. left. reflexivity.
    + split; [rewrite Hrt; reflexivity|]. split; [discriminate|].
      intros res' err [= <-] He'. rewrite He in He'. discriminate.
Qed.

Lemma forward_failure_502_or_abort_witness :
  NewProxyServer sampleParse
    (sampleConfig true 50) = Ok (sampleServer true 50)
  /\ http.Method (sampleRequest "GET" "/api/movies/42") <> "OPTIONS"
  /\ url.Path (http.URL (sampleRequest "GET" "/api/movies/42")) <> "/health"
  /\ chosen (sampleServer true 50) (sampleRequest "GET" "/api/movies/42")
            (sampleWorld 3 unreachable) = MoviesMicroservice
  /\ backend (sampleWorld 3 unreachable)
       (httputil.Director
          (proxyOf (sampleServer true 50)
             (chosen (sampleServer true 50)
                (sampleRequest "GET" "/api/movies/42")
                (sampleWorld 3 unreachable)))
          (sampleRequest "GET" "/api/movies/42"))
     = inl "dial tcp: connection refused"
  /\ http.status (fst (serve (sampleServer true 50)
                         (sampleRequest "GET" "/api/movies/42")
                         (sampleWorld 3 unreachable))) = 502
  /\ http.body (fst (serve (sampleServer true 50)
                       (sampleRequest "GET" "/api/movies/42")
                       (sampleWorld 3 unreachable))) = errorBody.
Proof.
  split; [reflexivity|]. split; [discriminate|]. split; [discriminate|].
  split; [reflexivity|]. split; [reflexivity|].
  destruct (forward_failure_502_or_abort sampleParse (sampleConfig true 50)
              (sampleServer true 50) (sampleRequest "GET" "/api/movies/42")
              (sampleWorld 3 unreachable) eq_refl)
    as (_ & H & _); [discriminate | discriminate |].
  destruct (H "dial tcp: connection refused" eq_refl) as (Hst & _ & Hb & _).
  split; [exact Hst | exact Hb].
Defined.

(** C8 as stated fails. The monolith answers [200], sends three bytes
    of its body and breaks off: forwarding has failed, but the caller
    gets no [502] and no JSON error body; the gateway has relayed the
    [200] and the three bytes, and drops the connection. *)
Lemma broken_body_is_not_502 :
  backend (sampleWorld 3 truncating)
    (httputil.Director
       (proxyOf (sampleServer true 50)
          (chosen (sampleServer true 50) (sampleRequest "GET" "/api/users")
             (sampleWorld 3 truncating)))
       (sampleRequest "GET" "/api/users"))
  = inr (http.mkResponse 200 ∅ "par" (Some "unexpected EOF") I)
  /\ http.status (fst (serve (sampleServer true 50)
                         (sampleRequest "GET" "/api/users")
                         (sampleWorld 3 truncating))) <> 502
  /\ http.body (fst (serve (sampleServer true 50)
                       (sampleRequest "GET" "/api/users")
                       (sampleWorld 3 truncating))) <> errorBody
  /\ http.status (fst (serve (sampleServer true 50)
                         (sampleRequest "GET" "/api/users")
                         (sampleWorld 3 truncating))) = 200
  /\ http.body (fst (serve (sampleServer true 50)
                       (sampleRequest "GET" "/api/users")
                       (sampleWorld 3 truncating))) = "par"
  /\ http.aborted (fst (serve (sampleServer true 50)
                          (sampleRequest "GET" "/api/users")
                          (sampleWorld 3 truncating))) = true.
Proof.
  split; [reflexivity|].
  split; [vm_compute; discriminate|].
  split; [vm_compute; discriminate|].
  split; [vm_compute; reflexivity|].
  split; vm_compute; reflexivity.
Qed.

(** ** Classification *)

(** [ServeHTTP] is the design's pipeline: the branch it takes is the
    category [classify] gives to the path. *)
Lemma ServeHTTP_pipeline (ps : ProxyServer) (W : Type)
    (RW : http.ResponseWriter W) (w : W) (r : http.Request) (σ : World) :
  ServeHTTP ps W RW w r σ = pipeline ps W RW w r σ.
Proof.
  unfold ServeHTTP, pipeline, classify, decide, forwardTo,
    shouldRouteToNewService, mbind, M_bind, mret, M_ret.
  simpl.
  destruct (String.eqb _ "/health"); [reflexivity|].
  destruct (strings.HasPrefix _ "/api/events"); [reflexivity|].
  destruct (strings.HasPrefix _ "/api/movies"); [|reflexivity].
  destruct (GradualMigration (config ps)); simpl; [|reflexivity].
  destruct (_ <? MoviesMigrationPercent (config ps)); reflexivity.
Qed.

(** An exact prefix survives case folding. *)
Lemma events_prefix_folded (path : string) :
  strings.HasPrefix path "/api/events" = true ->
  strings.HasPrefix (ToLower path) "/api/events" = true.
Proof.
  intros H. apply HasPrefix_inv in H as [t ->].
  exact (HasPrefix_app "/api/events" (ToLower t)).
Qed.

Lemma movies_prefix_folded (path : string) :
  strings.HasPrefix path "/api/movies" = true ->
  strings.HasPrefix (ToLower path) "/api/movies" = true.
Proof.
  intros H. apply HasPrefix_inv in H as [t ->].
  exact (HasPrefix_app "/api/movies" (ToLower t)).
Qed.

Lemma health_folded (path : string) :
  String.eqb path "/health" = true ->
  ToLower path = "/health".
Proof. intros H. apply String.eqb_eq in H as ->. reflexivity. Qed.

(** A path that matches a routed prefix only up to letter case matches
    no prefix exactly and is not the health-check path. *)
Lemma case_variant_unmatched (path : string) :
  (strings.HasPrefix (ToLower path) "/api/movies" = true
   /\ strings.HasPrefix path "/api/movies" = false)
  \/ (strings.HasPrefix (ToLower path) "/api/events" = true
      /\ strings.HasPrefix path "/api/events" = false) ->
  String.eqb path "/health" = false
  /\ strings.HasPrefix path "/api/events" = false
  /\ strings.HasPrefix path "/api/movies" = false.
Proof.
  intros [[Hl Hx] | [Hl Hx]].
  - split; [|split; [|exact Hx]].
    + destruct (String.eqb path "/health") eqn:Hh; [|reflexivity].
      rewrite (health_folded _ Hh) in Hl. discriminate.
    + destruct (strings.HasPrefix path "/api/events") eqn:He; [|reflexivity].
      apply events_prefix_folded in He.
      rewrite (movies_not_events _ Hl) in He. discriminate.
  - split; [|split; [exact Hx|]].
    + destruct (String.eqb path "/health") eqn:Hh; [|reflexivity].
      rewrite (health_folded _ Hh) in Hl. discriminate.
    + destruct (strings.HasPrefix path "/api/movies") eqn:Hv; [|reflexivity].
      apply movies_prefix_folded in Hv.
      rewrite (movies_not_events _ Hv) in Hl. discriminate.
Qed.

(** C9. The branch [ServeHTTP] takes is the category the classifier
    gives to the request path, a function of the path alone: [ServeHTTP]
    is the pipeline built on [classify], and two requests with the same
    path get the same category. The comparison is an exact prefix match
    without case folding: a path that matches [/api/movies] or
    [/api/events] only up to letter case, such as [/API/movies], is in
    the default category and goes to the monolith. *)
Theorem classification_exact_prefix
    (ps : ProxyServer) (W : Type) (RW : http.ResponseWriter W)
    (w : W) (r : http.Request) (σ : World) :
  ServeHTTP ps W RW w r σ = pipeline ps W RW w r σ
  /\ (forall r' : http.Request,
        url.Path (http.URL r') = url.Path (http.URL r) ->
        classify (url.Path (http.URL r')) = classify (url.Path (http.URL r)))
  /\ ((strings.HasPrefix (ToLower (url.Path (http.URL r))) "/api/movies" = true
       /\ strings.HasPrefix (url.Path (http.URL r)) "/api/movies" = false)
      \/ (strings.HasPrefix (ToLower (url.Path (http.URL r))) "/api/events"
            = true
          /\ strings.HasPrefix (url.Path (http.URL r)) "/api/events" = false)
      -> classify (url.Path (http.URL r)) = Default
         /\ ServeHTTP ps W RW w r σ =
            forwardTo ps Monolith W RW w r
              (logging [Incoming (http.Method r) (url.Path (http.URL r));
                        RoutingDefault (url.Path (http.URL r))] σ))
  /\ classify "/API/movies" = Default
  /\ classify "/api/Events/7" = Default.
Proof.
  split; [apply ServeHTTP_pipeline|].
  split; [intros r' ->; reflexivity|].
  split; [|split; reflexivity].
  intros Hcase. destruct (case_variant_unmatched _ Hcase) as (Hh & He & Hm).
  split.
  - unfold classify. rewrite He, Hm. reflexivity.
  - exact (ServeHTTP_default ps W RW w r σ Hh He Hm).
Qed.

Lemma classification_exact_prefix_witness :
  (strings.HasPrefix
     (ToLower (url.Path (http.URL (sampleRequest "GET" "/API/movies/42"))))
     "/api/movies" = true
   /\ strings.HasPrefix
        (url.Path (http.URL (sampleRequest "GET" "/API/movies/42")))
        "/api/movies" = false)
  /\ classify (url.Path (http.URL (sampleRequest "GET" "/API/movies/42")))
     = Default
  /\ ServeHTTP (sampleServer false 100) http.response _ http.newResponse
       (sampleRequest "GET" "/API/movies/42") (sampleWorld 5 echoHost) =
     forwardTo (sampleServer false 100) Monolith
       http.response _ http.newResponse
       (sampleRequest "GET" "/API/movies/42")
       (logging [Incoming "GET" "/API/movies/42";
                 RoutingDefault "/API/movies/42"]
                (sampleWorld 5 echoHost)).
Proof.
  split; [split; reflexivity|].
  destruct (classification_exact_prefix (sampleServer false 100)
              http.response _ http.newResponse
              (sampleRequest "GET" "/API/movies/42")
              (sampleWorld 5 echoHost)) as (_ & _ & H & _).
  apply H. left. split; reflexivity.
Defined.

(** ** Configuration loading *)

Lemma NewProxyServer_config (parse : string -> result url.URL)
    (cfg : Config) (ps : ProxyServer) :
  NewProxyServer parse cfg = Ok ps -> config ps = cfg.
Proof.
  intros H. destruct (NewProxyServer_inv _ _ _ H) as (tm & tv & te & ->).
  reflexivity.
Qed.

Lemma loadConfig_gradual (env : gmap string string) :
  GradualMigration (loadConfig env) =
  String.eqb (os.Getenv env "GRADUAL_MIGRATION") "true".
Proof. reflexivity. Qed.

Lemma loadConfig_percent (env : gmap string string) :
  MoviesMigrationPercent (loadConfig env) =
  match strconv.Atoi (os.Getenv env "MOVIES_MIGRATION_PERCENT") with
  | Some percent => percent
  | None => 50
  end.
Proof.
  unfold loadConfig. simpl.
  destruct (String.eqb_spec (os.Getenv env "MOVIES_MIGRATION_PERCENT") "")
    as [-> | Hne]; reflexivity.
Qed.

Lemma Atoi_range (s : string) (v : Z) :
  strconv.Atoi s = Some v -> strconv.minInt <= v <= strconv.maxInt.
Proof.
  unfold strconv.Atoi.
  destruct (match s with
            | String "-" s' => (true, s')
            | String "+" s' => (false, s')
            | _ => (false, s)
            end) as [neg body].
  destruct body as [|c body']; [discriminate|].
  destruct (strconv.digits 0 (String c body')) as [n|]; [|discriminate].
  destruct (_ && _) eqn:Hr; [|discriminate].
  intros [= <-]. apply andb_prop in Hr as [H1 H2].
  apply Z.leb_le in H1. apply Z.leb_le in H2. lia.
Qed.

(** C10. Gradual migration is on exactly when [GRADUAL_MIGRATION] is set
    to the string [true]. For every other environment (the variable
    unset included) it is off, and the server built from the loaded
    configuration sends every request under [/api/movies] to the movies
    microservice without drawing, whatever the migration percentage. *)
Theorem gradual_only_for_exact_true
    (env : gmap string string) (parse : string -> result url.URL)
    (ps : ProxyServer) (W : Type) (RW : http.ResponseWriter W)
    (w : W) (r : http.Request) (σ : World) :
  (GradualMigration (loadConfig env) = true
   <-> env !! "GRADUAL_MIGRATION" = Some "true")
  /\ (env !! "GRADUAL_MIGRATION" <> Some "true" ->
      NewProxyServer parse (loadConfig env) = Ok ps ->
      strings.HasPrefix (url.Path (http.URL r)) "/api/movies" = true ->
      GradualMigration (config ps) = false
      /\ ServeHTTP ps W RW w r σ =
         forwardTo ps MoviesMicroservice W RW w r
           (logging [Incoming (http.Method r) (url.Path (http.URL r));
                     RoutingMovies (url.Path (http.URL r))
                       (MoviesMigrationPercent (loadConfig env))] σ)).
Proof.
  assert (Hiff : GradualMigration (loadConfig env) = true
                 <-> env !! "GRADUAL_MIGRATION" = Some "true").
  { rewrite loadConfig_gradual. unfold os.Getenv.
    destruct (env !! "GRADUAL_MIGRATION") as [v|]; simpl.
    - rewrite String.eqb_eq. split; [intros ->; reflexivity|].
      intros [= ->]. reflexivity.
    - split; discriminate. }
  split; [exact Hiff|].
  intros Hne Hnew Hm.
  pose proof (NewProxyServer_config _ _ _ Hnew) as Hcfg.
  assert (Hoff : GradualMigration (config ps) = false).
  { rewrite Hcfg. destruct (GradualMigration (loadConfig env)); [|reflexivity].
    exfalso. apply Hne, Hiff. reflexivity. }
  split; [exact Hoff|].
  rewrite (ServeHTTP_movies ps W RW w r σ Hm), Hoff, Hcfg. reflexivity.
Qed.

Lemma gradual_only_for_exact_true_witness :
  ({[ "GRADUAL_MIGRATION" := "TRUE" ]} : gmap string string)
    !! "GRADUAL_MIGRATION" <> Some "true"
  /\ NewProxyServer sampleParse
       (loadConfig {[ "GRADUAL_MIGRATION" := "TRUE" ]})
     = Ok (envServer {[ "GRADUAL_MIGRATION" := "TRUE" ]})
  /\ strings.HasPrefix
       (url.Path (http.URL (sampleRequest "GET" "/api/movies")))
       "/api/movies" = true
  /\ GradualMigration (config (envServer {[ "GRADUAL_MIGRATION" := "TRUE" ]}))
     = false
  /\ ServeHTTP (envServer {[ "GRADUAL_MIGRATION" := "TRUE" ]})
       http.response _ http.newResponse
       (sampleRequest "GET" "/api/movies") (sampleWorld 99 echoHost) =
     forwardTo (envServer {[ "GRADUAL_MIGRATION" := "TRUE" ]})
       MoviesMicroservice http.response _ http.newResponse
       (sampleRequest "GET" "/api/movies")
       (logging [Incoming "GET" "/api/movies";
                 RoutingMovies "/api/movies"
                   (MoviesMigrationPercent
                      (loadConfig {[ "GRADUAL_MIGRATION" := "TRUE" ]}))]
                (sampleWorld 99 echoHost)).
Proof.
  split; [vm_compute; discriminate|]. split; [reflexivity|].
  split; [reflexivity|].
  destruct (gradual_only_for_exact_true {[ "GRADUAL_MIGRATION" := "TRUE" ]}
              sampleParse (envServer {[ "GRADUAL_MIGRATION" := "TRUE" ]})
              http.response _ http.newResponse
              (sampleRequest "GET" "/api/movies") (sampleWorld 99 echoHost))
    as [_ H].
  apply H.
  - vm_compute. discriminate.
  - reflexivity.
  - reflexivity.
Defined.

(** The policy only compares the percentage with a draw in [[0,100)], so
    it cannot tell a percentage from its clamped value. *)
Lemma shouldRoute_clamp (ps : ProxyServer) (σ : World) :
  shouldRouteToNewService ps σ =
  shouldRouteToNewService
    (withPercent (clamp (MoviesMigrationPercent (config ps))) ps) σ.
Proof.
  unfold shouldRouteToNewService, withPercent, mbind, M_bind, mret, M_ret.
  simpl. destruct (GradualMigration (config ps)); simpl; [|reflexivity].
  pose proof (draw_range σ) as Hr. unfold draw, rand.Intn in Hr. simpl in Hr.
  f_equal. unfold clamp.
  destruct (Z.ltb_spec (rand.tape (rng σ) (rand.cursor (rng σ)) mod 100)
                       (MoviesMigrationPercent (config ps)));
  destruct (Z.ltb_spec (rand.tape (rng σ) (rand.cursor (rng σ)) mod 100)
                       (Z.max 0 (Z.min 100 (MoviesMigrationPercent (config ps)))));
  first [reflexivity | lia].
Qed.

(** C4, as the code has it. The loaded migration percentage is the
    integer [MOVIES_MIGRATION_PERCENT] parses to, whatever its value
    within Go's [int], and 50 when the variable is unset, empty or not
    an integer; no range check is made, and the server built from the
    configuration holds that value unchanged. In the routing policy a
    percentage below 0 acts as 0 and one above 100 acts as 100. *)
Theorem percent_loaded_unchecked
    (env : gmap string string) (parse : string -> result url.URL)
    (ps : ProxyServer) (σ : World) :
  NewProxyServer parse (loadConfig env) = Ok ps ->
  MoviesMigrationPercent (config ps) =
    match strconv.Atoi (os.Getenv env "MOVIES_MIGRATION_PERCENT") with
    | Some percent => percent
    | None => 50
    end
  /\ strconv.minInt <= MoviesMigrationPercent (config ps) <= strconv.maxInt
  /\ shouldRouteToNewService ps σ =
     shouldRouteToNewService
       (withPercent (clamp (MoviesMigrationPercent (config ps))) ps) σ.
Proof.
  intros Hnew. rewrite (NewProxyServer_config _ _ _ Hnew).
  split; [apply loadConfig_percent|]. split.
  - rewrite loadConfig_percent.
    destruct (strconv.Atoi _) as [v|] eqn:Ha.
    + exact (Atoi_range _ _ Ha).
    + unfold strconv.minInt, strconv.maxInt. lia.
  - rewrite <- (NewProxyServer_config _ _ _ Hnew). apply shouldRoute_clamp.
Qed.

Lemma percent_loaded_unchecked_witness :
  NewProxyServer sampleParse
    (loadConfig {[ "MOVIES_MIGRATION_PERCENT" := "-5" ]})
  = Ok (envServer {[ "MOVIES_MIGRATION_PERCENT" := "-5" ]})
  /\ MoviesMigrationPercent
       (config (envServer {[ "MOVIES_MIGRATION_PERCENT" := "-5" ]})) =
     match strconv.Atoi
             (os.Getenv {[ "MOVIES_MIGRATION_PERCENT" := "-5" ]}
                        "MOVIES_MIGRATION_PERCENT") with
     | Some percent => percent
     | None => 50
     end.
Proof.
  split; [reflexivity|].
  destruct (percent_loaded_unchecked {[ "MOVIES_MIGRATION_PERCENT" := "-5" ]}
              sampleParse (envServer {[ "MOVIES_MIGRATION_PERCENT" := "-5" ]})
              (sampleWorld 0 echoHost) eq_refl) as [H _].
  exact H.
Defined.

(** C4 as stated fails: with [MOVIES_MIGRATION_PERCENT=150] the loaded
    percentage is 150, outside [[0,100]], and the server that routes
    requests holds 150. *)
Lemma percent_150_loaded :
  MoviesMigrationPercent
    (loadConfig {[ "MOVIES_MIGRATION_PERCENT" := "150" ]}) = 150
  /\ ~ (0 <= MoviesMigrationPercent
               (loadConfig {[ "MOVIES_MIGRATION_PERCENT" := "150" ]}) <= 100)
  /\ NewProxyServer sampleParse
       (loadConfig {[ "MOVIES_MIGRATION_PERCENT" := "150" ]})
     = Ok (envServer {[ "MOVIES_MIGRATION_PERCENT" := "150" ]})
  /\ MoviesMigrationPercent
       (config (envServer {[ "MOVIES_MIGRATION_PERCENT" := "150" ]})) = 150.
Proof.
  assert (H : MoviesMigrationPercent
                (loadConfig {[ "MOVIES_MIGRATION_PERCENT" := "150" ]}) = 150)
    by (vm_compute; reflexivity).
  split; [exact H|]. split; [rewrite H; lia|].
  split; [reflexivity | exact H].
Qed.

(** ** Sample runs *)

Example loadConfig_defaults :
  loadConfig ∅ = mkConfig "8000" "http://localhost:8080" "http://localhost:8081"
                          "http://localhost:8082" false 50.
Proof. reflexivity. Qed.

Example loadConfig_negative :
  MoviesMigrationPercent
    (loadConfig {[ "MOVIES_MIGRATION_PERCENT" := "-5" ]}) = -5.
Proof. vm_compute. reflexivity. Qed.

Example loadConfig_not_a_number :
  MoviesMigrationPercent
    (loadConfig {[ "MOVIES_MIGRATION_PERCENT" := "half" ]}) = 50.
Proof. vm_compute. reflexivity. Qed.

Example Atoi_examples :
  strconv.Atoi "-5" = Some (-5) /\ strconv.Atoi "+07" = Some 7
  /\ strconv.Atoi EmptyString = None /\ strconv.Atoi "-" = None
  /\ strconv.Atoi "5 " = None /\ strconv.Atoi "9223372036854775808" = None
  /\ strconv.Atoi "-9223372036854775808" = Some (- 2 ^ 63).
Proof. vm_compute. repeat split. Qed.

Example HasPrefix_examples :
  strings.HasPrefix "/api/movies" "/api/movies" = true
  /\ strings.HasPrefix "/api/moviesandmore" "/api/movies" = true
  /\ strings.HasPrefix "/api/movie" "/api/movies" = false
  /\ strings.HasPrefix "/api/events/" "/api/events" = true
  /\ strings.HasPrefix "/API/movies" "/api/movies" = false.
Proof. repeat split. Qed.

(** Half of the draws, on a 50% migration: draw 49 goes to the movies
    microservice, draw 50 to the monolith; the host that answers shows
    in the body. *)
Example movies_split_at_50 :
  http.body (fst (serve (sampleServer true 50)
                    (sampleRequest "GET" "/api/movies")
                    (sampleWorld 49 echoHost))) = "movies:8081"
  /\ http.body (fst (serve (sampleServer true 50)
                       (sampleRequest "GET" "/api/movies")
                       (sampleWorld 50 echoHost))) = "monolith:8080".
Proof. vm_compute. split; reflexivity. Qed.

Example unreachable_backend_502 :
  http.status (fst (serve (sampleServer true 50)
                      (sampleRequest "POST" "/api/events/movie")
                      (sampleWorld 0 unreachable))) = 502
  /\ http.body (fst (serve (sampleServer true 50)
                       (sampleRequest "POST" "/api/events/movie")
                       (sampleWorld 0 unreachable))) = errorBody
  /\ length (roundTrips (snd (serve (sampleServer true 50)
                                (sampleRequest "POST" "/api/events/movie")
                                (sampleWorld 0 unreachable)))) = 1%nat.
Proof. vm_compute. repeat split. Qed.

(** * Further properties of the gateway *)

(** ** A closed form for forwarded requests *)

Lemma events_not_movies (path : string) :
  strings.HasPrefix path "/api/events" = true ->
  strings.HasPrefix path "/api/movies" = false.
Proof. intros H. apply HasPrefix_inv in H as [t ->]. reflexivity. Qed.

(** [ServeHTTP] on a request that is not the health check: two log
    lines, the second one a routing line, a draw when the policy needs
    one, then the chosen proxy. *)
Lemma ServeHTTP_chosen (ps : ProxyServer) (W : Type)
    (RW : http.ResponseWriter W) (w : W) (r : http.Request) (σ : World) :
  url.Path (http.URL r) <> "/health" ->
  exists line,
    (forall m u a c, line <> Access m u a c)
    /\ ServeHTTP ps W RW w r σ =
       forwardTo ps (chosen ps r σ) W RW w r
         (logging [Incoming (http.Method r) (url.Path (http.URL r)); line]
            (if strings.HasPrefix (url.Path (http.URL r)) "/api/movies"
                && GradualMigration (config ps)
             then afterDraw σ else σ)).
Proof.
  intros Hh. apply String.eqb_neq in Hh. unfold chosen, classify.
  destruct (strings.HasPrefix (url.Path (http.URL r)) "/api/events") eqn:He.
  { rewrite (events_not_movies _ He). simpl. eexists. split; [|
      apply (ServeHTTP_events ps W RW w r σ He)]. discriminate. }
  destruct (strings.HasPrefix (url.Path (http.URL r)) "/api/movies") eqn:Hm.
  { rewrite (ServeHTTP_movies ps W RW w r σ Hm).
    unfold decide, draw, mbind, M_bind, rand_Intn, rand.Intn. simpl.
    destruct (GradualMigration (config ps)); simpl.
    - destruct (_ <? _); simpl; eexists; (split; [|reflexivity]);
        discriminate.
    - eexists. split; [|reflexivity]. discriminate. }
  simpl. eexists. split; [|
    apply (ServeHTTP_default ps W RW w r σ Hh He Hm)]. discriminate.
Qed.

(** The whole chain on a forwarded request, for a server built by
    [NewProxyServer]: the error answer, the relayed response, or the
    relayed start of a response on a dropped connection. *)
Lemma serve_forwarded (parse : string -> result url.URL) (cfg : Config)
    (ps : ProxyServer) (r : http.Request) (σ : World) :
  NewProxyServer parse cfg = Ok ps ->
  http.Method r <> "OPTIONS" ->
  url.Path (http.URL r) <> "/health" ->
  exists line,
    (forall m u a c, line <> Access m u a c)
    /\ serve ps r σ =
    match backend σ (outbound ps r σ) with
    | inl err =>
        (answer corsHeaders 502
           (json.Encode [("error", "Service temporarily unavailable")]),
         {| rng := rng (deciding ps r σ);
            backend := backend σ;
            roundTrips := (roundTrips σ ++ [outbound ps r σ])%list;
            logged :=
              (logged σ ++
               [Incoming (http.Method r) (url.Path (http.URL r)); line;
                ProxyError err;
                Access (http.Method r) (http.RequestURI r)
                       (http.RemoteAddr r) 502])%list |})
    | inr res =>
        match http.ResBodyErr res with
        | None =>
            (answer (httputil.copyHeader (http.ResHeader res) corsHeaders)
                    (http.StatusCode res) (http.ResBody res),
             {| rng := rng (deciding ps r σ);
                backend := backend σ;
                roundTrips := (roundTrips σ ++ [outbound ps r σ])%list;
                logged :=
                  (logged σ ++
                   [Incoming (http.Method r) (url.Path (http.URL r)); line;
                    Access (http.Method r) (http.RequestURI r)
                           (http.RemoteAddr r)
                           (http.StatusCode res)])%list |})
        | Some err =>
            (http.abort
               (answer (httputil.copyHeader (http.ResHeader res) corsHeaders)
                       (http.StatusCode res) (http.ResBody res)),
             {| rng := rng (deciding ps r σ);
                backend := backend σ;
                roundTrips := (roundTrips σ ++ [outbound ps r σ])%list;
                logged :=
                  (logged σ ++
                   [Incoming (http.Method r) (url.Path (http.URL r)); line;
                    LibraryCopyError err])%list |})
        end
    end.
Proof.
  intros Hnew Hm Hh.
  destruct (ServeHTTP_chosen ps _ _
              (mkLRW (withCORS http.newResponse) http.StatusOK) r σ Hh)
    as (line & Hline & Heq).
  exists line. split; [exact Hline|].
  destruct (NewProxyServer_proxyOf parse cfg ps (chosen ps r σ) Hnew)
    as [target Hpx].
  unfold serve, mbind, M_bind, outbound, deciding, draws.
  rewrite (handler_passes ps _ _ http.newResponse r σ Hm), Heq.
  apply String.eqb_neq in Hm. rewrite Hm. simpl negb. rewrite andb_true_l.
  unfold forwardTo. rewrite Hpx, createReverseProxy_ServeHTTP.
  destruct (strings.HasPrefix _ "/api/movies" && GradualMigration (config ps));
    cbn [backend logging afterDraw afterRoundTrip];
    (destruct (backend σ _) as [e|res];
     [ unfold mret, M_ret, logging, afterRoundTrip, afterDraw; simpl;
       rewrite <- ?app_assoc; reflexivity
     | rewrite relay_on_fresh;
       destruct (http.ResBodyErr res);
       unfold mret, M_ret, logging, afterRoundTrip, afterDraw;
       cbn [fst snd inner statusCode answer http.wroteHeader rng backend
            roundTrips logged];
       rewrite <- ?app_assoc; reflexivity ]).
Qed.

Lemma serve_options (ps : ProxyServer) (r : http.Request) (σ : World) :
  http.Method r = "OPTIONS" ->
  serve ps r σ =
  (answer corsHeaders 200 EmptyString,
   logging [Access (http.Method r) (http.RequestURI r) (http.RemoteAddr r) 200]
           σ).
Proof.
  intros Hm. unfold serve, mbind, M_bind.
  rewrite (handler_options ps _ _ http.newResponse r σ Hm). reflexivity.
Qed.

Lemma serve_health (ps : ProxyServer) (r : http.Request) (σ : World) :
  http.Method r <> "OPTIONS" ->
  url.Path (http.URL r) = "/health" ->
  serve ps r σ =
  (answer (http.Header_Set "Content-Type" "text/plain" corsHeaders) 200
          "Strangler Fig Proxy is healthy",
   logging [Incoming (http.Method r) "/health";
            Access (http.Method r) (http.RequestURI r) (http.RemoteAddr r) 200]
           σ).
Proof.
  intros Hm Hp. unfold serve, mbind, M_bind.
  rewrite (handler_passes ps _ _ http.newResponse r σ Hm).
  unfold ServeHTTP, mbind, M_bind. rewrite Hp. simpl.
  unfold logging. simpl. rewrite <- app_assoc. reflexivity.
Qed.

Lemma draws_options (ps : ProxyServer) (r : http.Request) :
  http.Method r = "OPTIONS" -> draws ps r = false.
Proof. intros Hm. unfold draws. rewrite Hm. reflexivity. Qed.

Lemma draws_health (ps : ProxyServer) (r : http.Request) :
  url.Path (http.URL r) = "/health" -> draws ps r = false.
Proof.
  intros Hp. unfold draws. rewrite Hp. simpl.
  rewrite andb_false_r. reflexivity.
Qed.

(** ** The access log *)

(** X1. For a server built by [NewProxyServer]: when the handling of a
    request returns, the last line logged for it is its access line,
    and the status in that line is the status sent to the client,
    whichever layer answered. When the connection is dropped because
    the backend's body broke, no access line is logged for the
    request. *)
Theorem access_line_has_sent_status
    (parse : string -> result url.URL) (cfg : Config) (ps : ProxyServer)
    (r : http.Request) (σ : World) :
  NewProxyServer parse cfg = Ok ps ->
  (http.aborted (fst (serve ps r σ)) = false ->
   exists pre,
     logged (snd (serve ps r σ)) =
     (logged σ ++ pre ++
      [Access (http.Method r) (http.RequestURI r) (http.RemoteAddr r)
              (http.status (fst (serve ps r σ)))])%list)
  /\ (http.aborted (fst (serve ps r σ)) = true ->
      exists added,
        logged (snd (serve ps r σ)) = (logged σ ++ added)%list
        /\ forall m u a c, ~ In (Access m u a c) added).
Proof.
  intros Hnew.
  destruct (String.eqb_spec (http.Method r) "OPTIONS") as [Hm|Hm].
  { rewrite (serve_options ps r σ Hm). split; [|discriminate].
    intros _. exists []. reflexivity. }
  destruct (String.eqb_spec (url.Path (http.URL r)) "/health") as [Hp|Hp].
  { rewrite (serve_health ps r σ Hm Hp). split; [|discriminate].
    intros _. eexists [_]. reflexivity. }
  destruct (serve_forwarded parse cfg ps r σ Hnew Hm Hp)
    as (line & Hline & ->).
  destruct (backend σ _) as [e|res].
  - split; [|discriminate]. intros _. eexists [_; _; _]. reflexivity.
  - destruct (http.ResBodyErr res) as [e|].
    + split; [discriminate|]. intros _. eexists. split; [reflexivity|].
      intros m u a c [H | [H | [H | []]]];
        [discriminate | exact (Hline m u a c H) | discriminate].
    + split; [|discriminate]. intros _. eexists [_; _]. reflexivity.
Qed.

Lemma access_line_has_sent_status_witness :
  NewProxyServer sampleParse (sampleConfig true 50) = Ok (sampleServer true 50)
  /\ http.aborted (fst (serve (sampleServer true 50)
                          (sampleRequest "GET" "/api/users")
                          (sampleWorld 3 unreachable))) = false
  /\ exists pre,
      logged (snd (serve (sampleServer true 50)
                     (sampleRequest "GET" "/api/users")
                     (sampleWorld 3 unreachable))) =
      ([] ++ pre ++
       [Access "GET" "/api/users" "10.0.0.7:51000"
               (http.status (fst (serve (sampleServer true 50)
                                    (sampleRequest "GET" "/api/users")
                                    (sampleWorld 3 unreachable))))])%list.
Proof.
  split; [reflexivity|]. split; [reflexivity|].
  destruct (access_line_has_sent_status sampleParse (sampleConfig true 50)
              (sampleServer true 50) (sampleRequest "GET" "/api/users")
              (sampleWorld 3 unreachable) eq_refl) as [H _].
  apply H. reflexivity.
Defined.

Lemma WriteHeader_fixes (w : http.response) (code : Z) :
  http.aborted w = false -> http.wroteHeader w = false ->
  200 <= code <= 999 \/ code = 101 ->
  http.response_WriteHeader code w =
  {| http.handlerHeader := http.handlerHeader w; http.wroteHeader := true;
     http.status := code; http.sentHeader := http.handlerHeader w;
     http.interim := http.interim w; http.body := http.body w;
     http.aborted := false |}.
Proof.
  intros Ha Hw Hf.
  assert (Hv : http.checkWriteHeaderCode code = true).
  { unfold http.checkWriteHeaderCode. apply andb_true_intro.
    split; apply Z.leb_le; lia. }
  assert (Hi : (code <=? 199) && negb (code =? 101) = false).
  { destruct Hf as [Hf | ->]; [|reflexivity].
    apply andb_false_intro1. apply Z.leb_gt. lia. }
  unfold http.response_WriteHeader. rewrite Ha, Hw, Hv, Hi. reflexivity.
Qed.

Lemma WriteHeader_interim (w : http.response) (code : Z) :
  http.aborted w = false -> http.wroteHeader w = false ->
  100 <= code <= 199 -> code <> 101 ->
  http.response_WriteHeader code w =
  {| http.handlerHeader := http.handlerHeader w; http.wroteHeader := false;
     http.status := http.status w; http.sentHeader := http.sentHeader w;
     http.interim := (http.interim w ++ [code])%list;
     http.body := http.body w; http.aborted := false |}.
Proof.
  intros Ha Hw Hf Hne.
  assert (Hv : http.checkWriteHeaderCode code = true).
  { unfold http.checkWriteHeaderCode. apply andb_true_intro.
    split; apply Z.leb_le; lia. }
  assert (Hi : (code <=? 199) && negb (code =? 101) = true).
  { apply andb_true_intro. split; [apply Z.leb_le; lia|].
    apply negb_true_iff. apply Z.eqb_neq. exact Hne. }
  unfold http.response_WriteHeader. rewrite Ha, Hw, Hv, Hi.
  cbn [negb]. rewrite ?Hw, ?Ha. reflexivity.
Qed.

Lemma WriteHeader_ignored (w : http.response) (code : Z) :
  http.wroteHeader w = true ->
  http.response_WriteHeader code w = w.
Proof.
  intros Hw. unfold http.response_WriteHeader. rewrite Hw.
  destruct (http.aborted w); reflexivity.
Qed.

(** X2. [loggingResponseWriter] records the code of the latest
    [WriteHeader], also when the wrapped writer has sent its header
    already and keeps the earlier status: after [WriteHeader] with a
    final code ([200..999] or [101]) and then with any other code, the
    recorded code is the second and the status sent is the first. An
    interim code ([1xx] other than [101]) fixes nothing: followed by a
    final code, the recorded code and the status sent are both that
    final code. *)
Theorem logging_writer_records_latest_code
    (w : http.response) (first second : Z) :
  http.wroteHeader w = false ->
  http.aborted w = false ->
  (200 <= first <= 999 \/ first = 101 ->
   statusCode (http.WriteHeader second
                 (http.WriteHeader first (mkLRW w http.StatusOK))) = second
   /\ http.status (inner (http.WriteHeader second
                            (http.WriteHeader first (mkLRW w http.StatusOK))))
      = first)
  /\ (100 <= first <= 199 -> first <> 101 -> 200 <= second <= 999 ->
      statusCode (http.WriteHeader second
                    (http.WriteHeader first (mkLRW w http.StatusOK))) = second
      /\ http.status (inner (http.WriteHeader second
                               (http.WriteHeader first
                                  (mkLRW w http.StatusOK))))
         = second
      /\ http.interim (inner (http.WriteHeader second
                                (http.WriteHeader first
                                   (mkLRW w http.StatusOK))))
         = (http.interim w ++ [first])%list).
Proof.
  intros Hw Ha.
  cbn [http.WriteHeader logging_writer http.response_writer inner statusCode].
  split.
  - intros Hf. split; [reflexivity|].
    rewrite (WriteHeader_fixes w first Ha Hw Hf).
    rewrite WriteHeader_ignored by reflexivity. reflexivity.
  - intros Hf Hne Hs. split; [reflexivity|].
    rewrite (WriteHeader_interim w first Ha Hw Hf Hne).
    rewrite WriteHeader_fixes by (reflexivity || (left; exact Hs)).
    split; reflexivity.
Qed.

Lemma logging_writer_records_latest_code_witness :
  http.wroteHeader http.newResponse = false
  /\ http.aborted http.newResponse = false
  /\ (200 <= 200 <= 999 \/ 200 = 101)
  /\ statusCode (http.WriteHeader 500
                   (http.WriteHeader 200 (mkLRW http.newResponse http.StatusOK)))
     = 500
  /\ http.status (inner (http.WriteHeader 500
                           (http.WriteHeader 200
                              (mkLRW http.newResponse http.StatusOK)))) = 200.
Proof.
  split; [reflexivity|]. split; [reflexivity|]. split; [left; lia|].
  destruct (logging_writer_records_latest_code http.newResponse 200 500
              eq_refl eq_refl) as [H _].
  apply H. left. lia.
Defined.

(** ** CORS headers on every response *)




(** ** Draws and round trips of one request *)

(** X4. Serving a request takes exactly one number from the random
    source when the request is not [OPTIONS], is under [/api/movies] and
    gradual migration is on, and none otherwise; the generator is
    otherwise untouched. *)
Theorem one_draw_per_policy_decision
    (parse : string -> result url.URL) (cfg : Config) (ps : ProxyServer)
    (r : http.Request) (σ : World) :
  NewProxyServer parse cfg = Ok ps ->
  rand.tape (rng (snd (serve ps r σ))) = rand.tape (rng σ)
  /\ rand.cursor (rng (snd (serve ps r σ))) =
     (if draws ps r then S (rand.cursor (rng σ)) else rand.cursor (rng σ)).
Proof.
  intros Hnew.
  destruct (String.eqb_spec (http.Method r) "OPTIONS") as [Hm|Hm].
  { rewrite (serve_options ps r σ Hm), (draws_options ps r Hm).
    split; reflexivity. }
  destruct (String.eqb_spec (url.Path (http.URL r)) "/health") as [Hp|Hp].
  { rewrite (serve_health ps r σ Hm Hp), (draws_health ps r Hp).
    split; reflexivity. }
  destruct (serve_forwarded parse cfg ps r σ Hnew Hm Hp)
    as (line & _ & ->).
  unfold deciding.
  destruct (backend σ _) as [e|res]; [|destruct (http.ResBodyErr res)];
    cbn [snd rng]; destruct (draws ps r); split; reflexivity.
Qed.

Lemma one_draw_per_policy_decision_witness :
  NewProxyServer sampleParse (sampleConfig true 50) = Ok (sampleServer true 50)
  /\ draws (sampleServer true 50) (sampleRequest "GET" "/api/movies") = true
  /\ rand.cursor (rng (snd (serve (sampleServer true 50)
                              (sampleRequest "GET" "/api/movies")
                              (sampleWorld 3 echoHost)))) = 1%nat.
Proof.
  split; [reflexivity|]. split; [reflexivity|].
  destruct (one_draw_per_policy_decision sampleParse (sampleConfig true 50)
              (sampleServer true 50) (sampleRequest "GET" "/api/movies")
              (sampleWorld 3 echoHost) eq_refl) as [_ H].
  exact H.
Defined.



(** ** Requests in sequence *)

Lemma chosen_rng (ps : ProxyServer) (r : http.Request) (σ σ' : World) :
  rng σ = rng σ' -> chosen ps r σ = chosen ps r σ'.
Proof.
  intros H. unfold chosen, decide, mbind, M_bind, rand_Intn.
  destruct (classify _); [reflexivity| |reflexivity].
  destruct (negb _); [reflexivity|]. simpl. rewrite H. reflexivity.
Qed.

(** The response depends on the world only through the generator and
    the network. *)
Lemma serve_response_frame (parse : string -> result url.URL) (cfg : Config)
    (ps : ProxyServer) (r : http.Request) (σ σ' : World) :
  NewProxyServer parse cfg = Ok ps ->
  rng σ = rng σ' -> backend σ = backend σ' ->
  fst (serve ps r σ) = fst (serve ps r σ').
Proof.
  intros Hnew Hr Hb.
  destruct (String.eqb_spec (http.Method r) "OPTIONS") as [Hm|Hm].
  { rewrite !(serve_options ps r _ Hm). reflexivity. }
  destruct (String.eqb_spec (url.Path (http.URL r)) "/health") as [Hp|Hp].
  { rewrite !(serve_health ps r _ Hm Hp). reflexivity. }
  destruct (serve_forwarded parse cfg ps r σ Hnew Hm Hp)
    as (line & _ & ->).
  destruct (serve_forwarded parse cfg ps r σ' Hnew Hm Hp)
    as (line' & _ & ->).
  unfold outbound. rewrite (chosen_rng ps r σ σ' Hr), Hb.
  destruct (backend σ' _) as [e|res]; [reflexivity|].
  destruct (http.ResBodyErr res); reflexivity.
Qed.

Lemma serve_world_after (parse : string -> result url.URL) (cfg : Config)
    (ps : ProxyServer) (r : http.Request) (σ : World) :
  NewProxyServer parse cfg = Ok ps ->
  rng (snd (serve ps r σ)) = rng (deciding ps r σ)
  /\ backend (snd (serve ps r σ)) = backend (deciding ps r σ).
Proof.
  intros Hnew. unfold deciding.
  destruct (String.eqb_spec (http.Method r) "OPTIONS") as [Hm|Hm].
  { rewrite (serve_options ps r σ Hm), (draws_options ps r Hm).
    split; reflexivity. }
  destruct (String.eqb_spec (url.Path (http.URL r)) "/health") as [Hp|Hp].
  { rewrite (serve_health ps r σ Hm Hp), (draws_health ps r Hp).
    split; reflexivity. }
  destruct (serve_forwarded parse cfg ps r σ Hnew Hm Hp)
    as (line & _ & ->).
  unfold deciding.
  destruct (backend σ _) as [e|res]; [|destruct (http.ResBodyErr res)];
    cbn [snd rng backend]; destruct (draws ps r); split; reflexivity.
Qed.

(** X6. The gateway keeps no state between requests except the position
    of the random source: the response to a request served after another
    one is the response it would get first, with the generator advanced
    by one draw when the earlier request took one. *)
Theorem earlier_request_only_advances_generator
    (parse : string -> result url.URL) (cfg : Config) (ps : ProxyServer)
    (r1 r2 : http.Request) (σ : World) :
  NewProxyServer parse cfg = Ok ps ->
  fst (serve ps r2 (snd (serve ps r1 σ))) =
  fst (serve ps r2 (if draws ps r1 then afterDraw σ else σ)).
Proof.
  intros Hnew.
  destruct (serve_world_after parse cfg ps r1 σ Hnew) as [Hr Hb].
  exact (serve_response_frame parse cfg ps r2 _ _ Hnew Hr Hb).
Qed.

Lemma earlier_request_only_advances_generator_witness :
  NewProxyServer sampleParse (sampleConfig true 50) = Ok (sampleServer true 50)
  /\ fst (serve (sampleServer true 50) (sampleRequest "GET" "/api/movies")
            (snd (serve (sampleServer true 50)
                    (sampleRequest "GET" "/api/users")
                    (sampleWorld 3 echoHost)))) =
     fst (serve (sampleServer true 50) (sampleRequest "GET" "/api/movies")
            (sampleWorld 3 echoHost)).
Proof.
  split; [reflexivity|].
  apply (earlier_request_only_advances_generator sampleParse
           (sampleConfig true 50) (sampleServer true 50)
           (sampleRequest "GET" "/api/users")
           (sampleRequest "GET" "/api/movies") (sampleWorld 3 echoHost)).
  reflexivity.
Defined.

(** ** The migration percentage *)

Lemma shouldRoute_value (ps : ProxyServer) (σ : World) :
  fst (shouldRouteToNewService ps σ) =
  negb (GradualMigration (config ps))
  || (draw σ <? MoviesMigrationPercent (config ps)).
Proof.
  unfold shouldRouteToNewService, draw, mbind, M_bind, rand_Intn, rand.Intn.
  destruct (GradualMigration (config ps)); reflexivity.
Qed.

(** X7. Raising the migration percentage never sends a request back to
    the monolith: a request routed to the new service at one percentage
    is routed to it, for the same draw, at every higher percentage. *)
Theorem raising_percent_keeps_new_service
    (ps : ProxyServer) (higher : Z) (σ : World) :
  MoviesMigrationPercent (config ps) <= higher ->
  fst (shouldRouteToNewService ps σ) = true ->
  fst (shouldRouteToNewService (withPercent higher ps) σ) = true.
Proof.
  intros Hle. rewrite !shouldRoute_value. simpl.
  destruct (GradualMigration (config ps)); simpl; [|reflexivity].
  rewrite !Z.ltb_lt. lia.
Qed.

Lemma raising_percent_keeps_new_service_witness :
  MoviesMigrationPercent (config (sampleServer true 30)) <= 60
  /\ fst (shouldRouteToNewService (sampleServer true 30)
            (sampleWorld 12 echoHost)) = true
  /\ fst (shouldRouteToNewService (withPercent 60 (sampleServer true 30))
            (sampleWorld 12 echoHost)) = true.
Proof.
  split; [vm_compute; discriminate|]. split; [reflexivity|].
  apply (raising_percent_keeps_new_service (sampleServer true 30) 60
           (sampleWorld 12 echoHost)).
  - vm_compute. discriminate.
  - reflexivity.
Defined.

Lemma count_below (p : Z) (n : nat) :
  length (List.filter (fun v => v <? p) (map Z.of_nat (seq 0 n))) =
  Z.to_nat (Z.max 0 (Z.min (Z.of_nat n) p)).
Proof.
  induction n as [|n IH]; [simpl; lia|].
  rewrite seq_S, map_app, List.filter_app, length_app, IH. simpl.
  destruct (Z.ltb_spec (Z.of_nat n) p); simpl; lia.
Qed.

Lemma filter_ext_in_range (f g : Z -> bool) (n : nat) :
  (forall v, 0 <= v < Z.of_nat n -> f v = g v) ->
  List.filter f (map Z.of_nat (seq 0 n)) = List.filter g (map Z.of_nat (seq 0 n)).
Proof.
  intros H. apply List.filter_ext_in. intros v Hv.
  apply in_map_iff in Hv as (i & <- & Hi). apply in_seq in Hi.
  apply H. lia.
Qed.

(** X8. Under gradual migration, of the 100 values a draw can take,
    the number routed to the new service is the migration percentage,
    cut to [[0,100]]. *)
Theorem share_of_draws_is_percent
    (ps : ProxyServer) (net : http.Request -> string + http.Response) :
  GradualMigration (config ps) = true ->
  length (List.filter
            (fun v => fst (shouldRouteToNewService ps (sampleWorld v net)))
            (map Z.of_nat (seq 0 100)))
  = Z.to_nat (clamp (MoviesMigrationPercent (config ps))).
Proof.
  intros Hg.
  rewrite (filter_ext_in_range _
             (fun v => v <? MoviesMigrationPercent (config ps)) 100).
  - rewrite count_below. unfold clamp. reflexivity.
  - intros v Hv. rewrite shouldRoute_value, Hg. simpl.
    rewrite (draw_any v net) by lia. reflexivity.
Qed.

Lemma share_of_draws_is_percent_witness :
  GradualMigration (config (sampleServer true 25)) = true
  /\ length (List.filter
               (fun v => fst (shouldRouteToNewService (sampleServer true 25)
                                (sampleWorld v echoHost)))
               (map Z.of_nat (seq 0 100)))
     = 25%nat.
Proof.
  split; [reflexivity|].
  apply (share_of_draws_is_percent (sampleServer true 25) echoHost).
  reflexivity.
Defined.

(** ** The outbound request *)

(** X9. The director of [createReverseProxy] sends the request to the
    target's scheme and host, with the target's host in [Host]; the
    method, the headers and the body are unchanged. For a target with an
    empty base path and no query of its own, a path that starts with a
    slash and the query string pass through unchanged. *)
Theorem director_rewrites_host_only
    (target : url.URL) (r : http.Request) :
  let out := httputil.Director (createReverseProxy target) r in
  http.Host out = url.Host target
  /\ url.Host (http.URL out) = url.Host target
  /\ url.Scheme (http.URL out) = url.Scheme target
  /\ http.Method out = http.Method r
  /\ http.ReqHeader out = http.ReqHeader r
  /\ http.ReqBody out = http.ReqBody r
  /\ (url.Path target = EmptyString ->
      strings.HasPrefix (url.Path (http.URL r)) "/" = true ->
      url.Path (http.URL out) = url.Path (http.URL r))
  /\ (url.RawQuery target = EmptyString ->
      url.RawQuery (http.URL out) = url.RawQuery (http.URL r)).
Proof.
  simpl. repeat split.
  - intros -> Hs. unfold httputil.singleJoiningSlash. rewrite Hs. reflexivity.
  - intros ->. reflexivity.
Qed.

Lemma director_rewrites_host_only_witness :
  url.Path (sampleURL "movies:8081") = EmptyString
  /\ strings.HasPrefix
       (url.Path (http.URL (sampleRequest "GET" "/api/movies/42"))) "/" = true
  /\ url.Path (http.URL (httputil.Director
                           (createReverseProxy (sampleURL "movies:8081"))
                           (sampleRequest "GET" "/api/movies/42")))
     = "/api/movies/42".
Proof.
  split; [reflexivity|]. split; [reflexivity|].
  destruct (director_rewrites_host_only (sampleURL "movies:8081")
              (sampleRequest "GET" "/api/movies/42"))
    as (_ & _ & _ & _ & _ & _ & H & _).
  apply H; reflexivity.
Defined.

(** ** Loading the configuration *)

Lemma Getenv_insert_empty (env : gmap string string) (k key : string) :
  os.Getenv (<[k := EmptyString]> env) key = os.Getenv (delete k env) key.
Proof.
  unfold os.Getenv. destruct (String.eqb_spec k key) as [->|Hne].
  - rewrite lookup_insert_eq, lookup_delete_eq. reflexivity.
  - rewrite lookup_insert_ne, lookup_delete_ne by exact Hne. reflexivity.
Qed.

(** X10. A variable set to the empty string counts as unset: the loaded
    configuration is the same as without the variable, for every
    variable and every environment. *)
Theorem empty_variable_is_unset (env : gmap string string) (k : string) :
  loadConfig (<[k := EmptyString]> env) = loadConfig (delete k env).
Proof. unfold loadConfig. rewrite !Getenv_insert_empty. reflexivity. Qed.

(** X11. No loaded setting is empty: the port and the three backend URLs
    are the values of their variables or, failing that, their defaults. *)
Theorem loaded_settings_not_empty (env : gmap string string) :
  Port (loadConfig env) <> EmptyString
  /\ MonolithURL (loadConfig env) <> EmptyString
  /\ MoviesServiceURL (loadConfig env) <> EmptyString
  /\ EventsServiceURL (loadConfig env) <> EmptyString.
Proof.
  unfold loadConfig. simpl.
  repeat split;
    match goal with
    | |- (if String.eqb ?s _ then _ else _) <> _ =>
        destruct (String.eqb_spec s EmptyString); [discriminate | assumption]
    end.
Qed.

(** * Properties of the events service *)

(** ** The service and its producers *)

Lemma NewEventService_ok (brokers : list string) :
  brokers <> [] ->
  events.NewEventService brokers = Ok (events.serviceOn brokers).
Proof. destruct brokers as [|b bs]; [contradiction|]. reflexivity. Qed.

Lemma NewEventService_inv (brokers : list string) (es : events.EventService) :
  events.NewEventService brokers = Ok es ->
  brokers <> [] /\ es = events.serviceOn brokers.
Proof.
  destruct brokers as [|b bs]; [discriminate|].
  intros [= <-]. split; [discriminate | reflexivity].
Qed.

Lemma producers_lookup (brokers : list string) (topic : string) :
  In topic ["movie-events"; "user-events"; "payment-events"] ->
  events.producers (events.serviceOn brokers) !! topic
  = Some (events.writerFor brokers topic).
Proof.
  intros [<- | [<- | [<- | []]]]; vm_compute; reflexivity.
Qed.

Lemma producers_lookup_other (brokers : list string) (topic : string) :
  ~ In topic ["movie-events"; "user-events"; "payment-events"] ->
  events.producers (events.serviceOn brokers) !! topic = None.
Proof.
  intros Hn. unfold events.serviceOn, events.producers.
  rewrite !lookup_insert_ne, lookup_empty; [reflexivity| | |];
    intros <-; apply Hn; simpl; tauto.
Qed.

(** X12. On an empty list of brokers [NewEventService] panics, in
    [kafka.NewReader], and no service is made. On any other list it
    returns a service on those brokers with a producer and a consumer
    for each of the three topics and for no other topic; each consumer
    reads its own topic from the latest offset in the group
    [events-service-group]. *)
Theorem service_covers_the_three_topics (brokers : list string) (topic : string) :
  (brokers = [] -> exists v, events.NewEventService brokers = Err v)
  /\ (brokers <> [] ->
      exists es,
        events.NewEventService brokers = Ok es
        /\ events.kafkaBrokers es = brokers
        /\ (In topic ["movie-events"; "user-events"; "payment-events"] ->
            events.producers es !! topic
            = Some {| events.kafka.Addr := brokers;
                      events.kafka.Topic := topic;
                      events.kafka.WriterBalancer := events.kafka.LeastBytes |}
            /\ events.consumers es !! topic
               = Some {| events.kafka.Brokers := brokers;
                         events.kafka.ReaderTopic := topic;
                         events.kafka.GroupID := "events-service-group";
                         events.kafka.StartOffset := events.kafka.LastOffset;
                         events.kafka.MaxBytes := 10000000 |})
        /\ (~ In topic ["movie-events"; "user-events"; "payment-events"] ->
            events.producers es !! topic = None
            /\ events.consumers es !! topic = None)).
Proof.
  split.
  - intros ->. eexists. reflexivity.
  - intros Hne. exists (events.serviceOn brokers).
    split; [exact (NewEventService_ok brokers Hne)|].
    split; [reflexivity|]. split.
    + intros Hin. split; [exact (producers_lookup brokers topic Hin)|].
      destruct Hin as [<- | [<- | [<- | []]]]; vm_compute; reflexivity.
    + intros Hn. split; [exact (producers_lookup_other brokers topic Hn)|].
      unfold events.serviceOn, events.consumers.
      rewrite !lookup_insert_ne, lookup_empty; [reflexivity| | |];
        intros <-; apply Hn; simpl; tauto.
Qed.

Lemma service_covers_the_three_topics_witness :
  ["kafka:9092"] <> []
  /\ In "user-events" ["movie-events"; "user-events"; "payment-events"]
  /\ exists es,
      events.NewEventService ["kafka:9092"] = Ok es
      /\ events.producers es !! "user-events"
         = Some (events.kafka.mkWriter ["kafka:9092"] "user-events"
                                       events.kafka.LeastBytes).
Proof.
  split; [discriminate|]. split; [simpl; tauto|].
  destruct (service_covers_the_three_topics ["kafka:9092"] "user-events")
    as [_ H].
  destruct H as (es & Hes & _ & Hin & _); [discriminate|].
  exists es. split; [exact Hes|].
  destruct Hin as [H _]; [simpl; tauto|]. exact H.
Defined.

(** ** Publishing *)

(** X13. [PublishEvent] on a topic the service has no producer for
    returns the error [producer for topic ... not found] and does
    nothing else: no message reaches Kafka and the clock is not read.
    The same holds when the event cannot be marshalled, with the
    marshalling error. *)
Theorem publish_fails_without_effect
    (marshal : events.Event -> result string) (es : events.EventService)
    (topic : string) (event : events.Event) (s : events.State) :
  (events.producers es !! topic = None ->
   events.PublishEvent marshal es topic event s =
   (Err ("producer for topic " ++ topic ++ " not found"), s))
  /\ (forall err, marshal event = Err err ->
      is_Some (events.producers es !! topic) ->
      events.PublishEvent marshal es topic event s = (Err err, s)).
Proof.
  unfold events.PublishEvent. split.
  - intros ->. reflexivity.
  - intros err Hm [producer ->]. rewrite Hm. reflexivity.
Qed.

Lemma publish_fails_without_effect_witness :
  events.producers events.sampleService !! "audit-events"
  = None
  /\ events.PublishEvent events.sampleMarshal
       events.sampleService "audit-events"
       (events.mkEvent "uuid-0" "movie" (events.mkTime 0 0)
          (events.MoviePayload
             (events.MovieEvent.mk 7 "Alien" "viewed" 0 0 [] EmptyString)))
       (events.sampleState events.accepting) =
     (Err "producer for topic audit-events not found",
      events.sampleState events.accepting).
Proof.
  split; [vm_compute; reflexivity|].
  destruct (publish_fails_without_effect events.sampleMarshal
              events.sampleService "audit-events"
              (events.mkEvent "uuid-0" "movie" (events.mkTime 0 0)
                 (events.MoviePayload
                    (events.MovieEvent.mk 7 "Alien" "viewed" 0 0 []
                       EmptyString)))
              (events.sampleState events.accepting)) as [H _].
  apply H. vm_compute. reflexivity.
Defined.

(** X14. For a service made by [NewEventService] and one of its three
    topics, [PublishEvent] of an event that marshals hands exactly one
    message to the producer of that topic, keyed by the event's ID and
    carrying the marshalled event. It returns Kafka's error when the
    write fails, without reading the clock; when the write succeeds it
    returns partition 0 and, as the offset, the current Unix time. *)
Theorem publish_writes_one_keyed_message
    (marshal : events.Event -> result string) (brokers : list string)
    (es : events.EventService)
    (topic : string) (event : events.Event) (bytes : string)
    (s : events.State) :
  events.NewEventService brokers = Ok es ->
  In topic ["movie-events"; "user-events"; "payment-events"] ->
  marshal event = Ok bytes ->
  events.written
    (snd (events.PublishEvent marshal es
            topic event s))
  = (events.written s ++
     [(events.writerFor brokers topic,
       events.kafka.mkMessage (events.ID event) bytes)])%list
  /\ (forall err,
        events.broker s (events.writerFor brokers topic)
          (events.kafka.mkMessage (events.ID event) bytes) = Some err ->
        fst (events.PublishEvent marshal es
               topic event s) = Err err
        /\ events.ticks
             (snd (events.PublishEvent marshal
                     es topic event s))
           = events.ticks s)
  /\ (events.broker s (events.writerFor brokers topic)
        (events.kafka.mkMessage (events.ID event) bytes) = None ->
      fst (events.PublishEvent marshal es
             topic event s)
      = Ok (0, events.Unix (events.clock s (events.ticks s)))
      /\ events.ticks
           (snd (events.PublishEvent marshal
                   es topic event s))
         = S (events.ticks s)).
Proof.
  intros Hes Hin Hm. apply NewEventService_inv in Hes as [_ ->].
  unfold events.PublishEvent.
  rewrite (producers_lookup brokers topic Hin), Hm.
  unfold mbind, events.SM_bind, events.WriteMessages. simpl.
  destruct (events.broker s _ _) as [e|]; simpl.
  - split; [reflexivity|]. split; [|discriminate].
    intros err [= <-]. split; reflexivity.
  - split; [reflexivity|]. split; [discriminate|].
    intros _. split; reflexivity.
Qed.

Lemma publish_writes_one_keyed_message_witness :
  events.NewEventService ["kafka:9092"] = Ok events.sampleService
  /\ In "movie-events" ["movie-events"; "user-events"; "payment-events"]
  /\ events.sampleMarshal
       (events.mkEvent "uuid-0" "movie" (events.mkTime 0 0)
          (events.MoviePayload
             (events.MovieEvent.mk 7 "Alien" "viewed" 0 0 [] EmptyString)))
     = Ok "movie:uuid-0"
  /\ events.written
       (snd (events.PublishEvent events.sampleMarshal
               events.sampleService "movie-events"
               (events.mkEvent "uuid-0" "movie" (events.mkTime 0 0)
                  (events.MoviePayload
                     (events.MovieEvent.mk 7 "Alien" "viewed" 0 0 []
                        EmptyString)))
               (events.sampleState events.accepting)))
     = ([] ++ [(events.writerFor ["kafka:9092"] "movie-events",
                events.kafka.mkMessage "uuid-0" "movie:uuid-0")])%list.
Proof.
  split; [reflexivity|]. split; [simpl; tauto|]. split; [reflexivity|].
  destruct (publish_writes_one_keyed_message events.sampleMarshal
              ["kafka:9092"] events.sampleService "movie-events"
              (events.mkEvent "uuid-0" "movie" (events.mkTime 0 0)
                 (events.MoviePayload
                    (events.MovieEvent.mk 7 "Alien" "viewed" 0 0 []
                       EmptyString)))
              "movie:uuid-0" (events.sampleState events.accepting))
    as [H _]; [reflexivity | simpl; tauto | reflexivity |].
  exact H.
Defined.

(** ** The event handlers *)

(** X15. Each of the three event handlers answers a request whose method
    is not [POST] with [405 Method not allowed] and does nothing else:
    the body is not decoded, no UUID is taken, the clock is not read,
    nothing reaches Kafka and nothing is logged. *)
Theorem handlers_accept_post_only
    (decodeMovie : string -> result events.MovieEvent.t)
    (decodeUser : string -> result events.UserEvent.t)
    (decodePayment : string -> result events.PaymentEvent.t)
    (marshal : events.Event -> result string)
    (encode : events.EventResponse -> result string)
    (es : events.EventService) (r : http.Request) (s : events.State) :
  http.Method r <> "POST" ->
  Forall (fun route =>
            forall (W : Type) (RW : http.ResponseWriter W) (w : W),
              snd route es W RW w r s =
              (http_Error w "Method not allowed" 405, s))
         (events.routes decodeMovie decodeUser decodePayment marshal encode)
  /\ http.status (http_Error http.newResponse "Method not allowed" 405) = 405
  /\ http.body (http_Error http.newResponse "Method not allowed" 405)
     = "Method not allowed" ++ String json.newline EmptyString.
Proof.
  intros Hm. apply String.eqb_neq in Hm.
  split; [|split; reflexivity].
  repeat constructor; intros W RW w; simpl;
    unfold events.handleMovieEvent, events.handleUserEvent,
      events.handlePaymentEvent; rewrite Hm; reflexivity.
Qed.

Lemma handlers_accept_post_only_witness :
  http.Method (sampleRequest "GET" "/api/events/movie") <> "POST"
  /\ Forall (fun route =>
               forall (W : Type) (RW : http.ResponseWriter W) (w : W),
                 snd route events.sampleService W RW w
                     (sampleRequest "GET" "/api/events/movie")
                     (events.sampleState events.accepting) =
                 (http_Error w "Method not allowed" 405,
                  events.sampleState events.accepting))
            (events.routes events.sampleDecodeMovie events.sampleDecodeUser
               events.sampleDecodePayment events.sampleMarshal
               events.sampleEncode).
Proof.
  split; [discriminate|].
  destruct (handlers_accept_post_only events.sampleDecodeMovie
              events.sampleDecodeUser events.sampleDecodePayment
              events.sampleMarshal events.sampleEncode
              events.sampleService
              (sampleRequest "GET" "/api/events/movie")
              (events.sampleState events.accepting)) as [H _];
    [discriminate|].
  exact H.
Defined.

(** X16. A [POST] whose body does not decode is answered [400] with the
    decoder's message, by each handler for its own kind of event, and
    nothing else happens: no UUID, no clock reading, no message, no log
    line. *)
Theorem undecodable_body_is_400
    (decodeMovie : string -> result events.MovieEvent.t)
    (decodeUser : string -> result events.UserEvent.t)
    (decodePayment : string -> result events.PaymentEvent.t)
    (marshal : events.Event -> result string)
    (encode : events.EventResponse -> result string)
    (es : events.EventService) (W : Type) (RW : http.ResponseWriter W)
    (w : W) (r : http.Request) (s : events.State) (err : string) :
  http.Method r = "POST" ->
  (decodeMovie (http.ReqBody r) = Err err ->
   events.handleMovieEvent decodeMovie marshal encode es W RW w r s =
   (http_Error w err 400, s))
  /\ (decodeUser (http.ReqBody r) = Err err ->
      events.handleUserEvent decodeUser marshal encode es W RW w r s =
      (http_Error w err 400, s))
  /\ (decodePayment (http.ReqBody r) = Err err ->
      events.handlePaymentEvent decodePayment marshal encode es W RW w r s =
      (http_Error w err 400, s)).
Proof.
  intros Hm.
  unfold events.handleMovieEvent, events.handleUserEvent,
    events.handlePaymentEvent.
  rewrite Hm. simpl.
  repeat split; intros ->; reflexivity.
Qed.

Lemma undecodable_body_is_400_witness :
  http.Method (events.samplePost EmptyString) = "POST"
  /\ events.sampleDecodeMovie (http.ReqBody (events.samplePost EmptyString))
     = Err "EOF"
  /\ events.handleMovieEvent events.sampleDecodeMovie events.sampleMarshal
       events.sampleEncode events.sampleService
       http.response _ http.newResponse (events.samplePost EmptyString)
       (events.sampleState events.accepting) =
     (http_Error http.newResponse "EOF" 400,
      events.sampleState events.accepting).
Proof.
  split; [reflexivity|]. split; [reflexivity|].
  destruct (undecodable_body_is_400 events.sampleDecodeMovie
              events.sampleDecodeUser events.sampleDecodePayment
              events.sampleMarshal events.sampleEncode
              events.sampleService
              http.response _ http.newResponse
              (events.samplePost EmptyString)
              (events.sampleState events.accepting) "EOF" eq_refl)
    as [H _].
  apply H. reflexivity.
Defined.

Lemma PublishEvent_built
    (marshal : events.Event -> result string) (brokers : list string)
    (topic : string) (event : events.Event) (bytes : string)
    (s : events.State) :
  In topic ["movie-events"; "user-events"; "payment-events"] ->
  marshal event = Ok bytes ->
  events.PublishEvent marshal (events.serviceOn brokers) topic event s =
  match events.broker s (events.writerFor brokers topic)
          (events.kafka.mkMessage (events.ID event) bytes) with
  | Some err =>
      (Err err,
       {| events.clock := events.clock s; events.ticks := events.ticks s;
          events.uuids := events.uuids s; events.issued := events.issued s;
          events.broker := events.broker s;
          events.written :=
            (events.written s ++
             [(events.writerFor brokers topic,
               events.kafka.mkMessage (events.ID event) bytes)])%list;
          events.journal := events.journal s |})
  | None =>
      (Ok (0, events.Unix (events.clock s (events.ticks s))),
       {| events.clock := events.clock s; events.ticks := S (events.ticks s);
          events.uuids := events.uuids s; events.issued := events.issued s;
          events.broker := events.broker s;
          events.written :=
            (events.written s ++
             [(events.writerFor brokers topic,
               events.kafka.mkMessage (events.ID event) bytes)])%list;
          events.journal := events.journal s |})
  end.
Proof.
  intros Hin Hm. unfold events.PublishEvent.
  rewrite (producers_lookup brokers topic Hin), Hm.
  unfold mbind, events.SM_bind, events.WriteMessages. simpl.
  destruct (events.broker s _ _); reflexivity.
Qed.

(** X17. A [POST] with a decodable movie event, on a service made by
    [NewEventService]: the event gets a fresh UUID, the type [movie] and
    the current time, and is handed to Kafka exactly once, on
    [movie-events], keyed by its ID. If Kafka takes it the answer is
    [201] with a JSON content type and the encoded response (status
    [success], partition 0, the Unix time as offset, the event); if
    Kafka fails the answer is [500] with Kafka's error. *)
Theorem movie_event_is_published_once
    (decodeMovie : string -> result events.MovieEvent.t)
    (marshal : events.Event -> result string)
    (encode : events.EventResponse -> result string)
    (brokers : list string) (es : events.EventService)
    (r : http.Request) (s : events.State)
    (movieEvent : events.MovieEvent.t) (bytes : string) :
  let event :=
    events.mkEvent (events.uuids s (events.issued s)) "movie"
      (events.clock s (events.ticks s)) (events.MoviePayload movieEvent) in
  let msg := events.kafka.mkMessage (events.ID event) bytes in
  let run :=
    events.handleMovieEvent decodeMovie marshal encode
      es http.response _ http.newResponse r s in
  events.NewEventService brokers = Ok es ->
  http.Method r = "POST" ->
  decodeMovie (http.ReqBody r) = Ok movieEvent ->
  marshal event = Ok bytes ->
  events.written (snd run) =
    (events.written s ++ [(events.writerFor brokers "movie-events", msg)])%list
  /\ events.issued (snd run) = S (events.issued s)
  /\ (forall err,
        events.broker s (events.writerFor brokers "movie-events") msg
        = Some err ->
        http.status (fst run) = 500
        /\ http.body (fst run) = err ++ String json.newline EmptyString
        /\ events.journal (snd run) =
           (events.journal s ++ [events.PublishError "movie" err])%list)
  /\ (events.broker s (events.writerFor brokers "movie-events") msg = None ->
      http.status (fst run) = 201
      /\ http.Header_Get "Content-Type" (http.sentHeader (fst run))
         = "application/json"
      /\ (forall data,
            encode (events.mkEventResponse "success" 0
                      (events.Unix (events.clock s (S (events.ticks s))))
                      event) = Ok data ->
            http.body (fst run) = data)
      /\ events.journal (snd run) =
         (events.journal s ++
          [events.PublishedMovie (events.ID event)
             (events.MovieEvent.Action movieEvent)
             (events.MovieEvent.MovieID movieEvent)])%list).
Proof.
  intros event msg run Hes Hm Hd Hb. subst run.
  apply NewEventService_inv in Hes as [_ ->].
  assert (He : String.eqb (http.Method r) "POST" = true)
    by (rewrite Hm; reflexivity).
  unfold events.handleMovieEvent. rewrite He, Hd.
  unfold mbind, events.SM_bind, events.uuid_New, events.time_Now.
  cbn [negb events.clock events.ticks events.uuids events.issued
       events.broker events.written events.journal].
  fold event.
  rewrite (PublishEvent_built marshal brokers "movie-events" event bytes)
    by (simpl; tauto || exact Hb).
  cbn [events.clock events.ticks events.uuids events.issued
       events.broker events.written events.journal].
  fold msg.
  destruct (events.broker s _ msg) as [e|]; simpl.
  - split; [reflexivity|]. split; [reflexivity|]. split; [|discriminate].
    intros err [= <-]. repeat split.
  - split; [reflexivity|]. split; [reflexivity|]. split; [discriminate|].
    intros _. unfold events.Encode.
    split; [|split; [|split]].
    + destruct (encode _); reflexivity.
    + destruct (encode _); vm_compute; reflexivity.
    + intros data Henc. rewrite Henc. reflexivity.
    + reflexivity.
Qed.

Lemma movie_event_is_published_once_witness :
  events.NewEventService ["kafka:9092"] = Ok events.sampleService
  /\ http.Method (events.samplePost "Alien") = "POST"
  /\ events.sampleDecodeMovie (http.ReqBody (events.samplePost "Alien"))
     = Ok (events.MovieEvent.mk 7 "Alien" "viewed" 0 0 [] EmptyString)
  /\ http.status
       (fst (events.handleMovieEvent events.sampleDecodeMovie
               events.sampleMarshal events.sampleEncode
               events.sampleService
               http.response _ http.newResponse (events.samplePost "Alien")
               (events.sampleState events.accepting))) = 201
  /\ http.status
       (fst (events.handleMovieEvent events.sampleDecodeMovie
               events.sampleMarshal events.sampleEncode
               events.sampleService
               http.response _ http.newResponse (events.samplePost "Alien")
               (events.sampleState events.failing))) = 500.
Proof.
  split; [reflexivity|]. split; [reflexivity|]. split; [reflexivity|]. split.
  - destruct (movie_event_is_published_once events.sampleDecodeMovie
                events.sampleMarshal events.sampleEncode ["kafka:9092"]
                events.sampleService
                (events.samplePost "Alien")
                (events.sampleState events.accepting)
                (events.MovieEvent.mk 7 "Alien" "viewed" 0 0 [] EmptyString)
                "movie:uuid-0" eq_refl eq_refl eq_refl eq_refl)
      as (_ & _ & _ & H).
    destruct (H eq_refl) as [Hst _]. exact Hst.
  - destruct (movie_event_is_published_once events.sampleDecodeMovie
                events.sampleMarshal events.sampleEncode ["kafka:9092"]
                events.sampleService
                (events.samplePost "Alien")
                (events.sampleState events.failing)
                (events.MovieEvent.mk 7 "Alien" "viewed" 0 0 [] EmptyString)
                "movie:uuid-0" eq_refl eq_refl eq_refl eq_refl)
      as (_ & _ & H & _).
    destruct (H "kafka: broker not available" eq_refl) as [Hst _]. exact Hst.
Defined.

(** X18. A user event that comes without a timestamp is published with
    the time of its arrival, one that has a timestamp keeps it; either
    way the event gets a fresh UUID, the type [user] and the time read
    next, and is handed to Kafka exactly once, on [user-events], keyed
    by its ID. The answer is [201] when Kafka takes the message and
    [500] with Kafka's error when it does not. *)
Theorem user_event_gets_missing_timestamp
    (decodeUser : string -> result events.UserEvent.t)
    (marshal : events.Event -> result string)
    (encode : events.EventResponse -> result string)
    (brokers : list string) (es : events.EventService)
    (r : http.Request) (s : events.State)
    (userEvent : events.UserEvent.t) (bytes : string) :
  let first :=
    if events.IsZero (events.UserEvent.Timestamp userEvent)
    then S (events.ticks s) else events.ticks s in
  let event :=
    events.mkEvent (events.uuids s (events.issued s)) "user"
      (events.clock s first)
      (events.UserPayload
         (events.stampedUser (events.clock s (events.ticks s)) userEvent)) in
  let msg := events.kafka.mkMessage (events.ID event) bytes in
  let run :=
    events.handleUserEvent decodeUser marshal encode
      es http.response _ http.newResponse r s in
  events.NewEventService brokers = Ok es ->
  http.Method r = "POST" ->
  decodeUser (http.ReqBody r) = Ok userEvent ->
  marshal event = Ok bytes ->
  events.written (snd run) =
    (events.written s ++ [(events.writerFor brokers "user-events", msg)])%list
  /\ (forall err,
        events.broker s (events.writerFor brokers "user-events") msg
        = Some err ->
        http.status (fst run) = 500
        /\ http.body (fst run) = err ++ String json.newline EmptyString)
  /\ (events.broker s (events.writerFor brokers "user-events") msg = None ->
      http.status (fst run) = 201
      /\ (forall data,
            encode (events.mkEventResponse "success" 0
                      (events.Unix (events.clock s (S first))) event)
            = Ok data ->
            http.body (fst run) = data)).
Proof.
  intros first event msg run Hes Hm Hd Hb. subst run.
  apply NewEventService_inv in Hes as [_ ->].
  assert (He : String.eqb (http.Method r) "POST" = true)
    by (rewrite Hm; reflexivity).
  unfold events.handleUserEvent. rewrite He, Hd.
  subst msg event first. unfold events.stampedUser in *.
  destruct (events.IsZero (events.UserEvent.Timestamp userEvent));
    unfold mbind, events.SM_bind, events.uuid_New, events.time_Now;
    cbn [negb mret events.SM_ret events.clock events.ticks events.uuids
         events.issued events.broker events.written events.journal];
    rewrite (PublishEvent_built marshal brokers "user-events" _ bytes)
      by (simpl; tauto || exact Hb);
    cbn [events.clock events.ticks events.uuids events.issued
         events.broker events.written events.journal events.ID];
    (destruct (events.broker s _ _) as [e|]; simpl;
     [ split; [reflexivity|]; split; [|discriminate];
       intros err [= <-]; split; reflexivity
     | split; [reflexivity|]; split; [discriminate|];
       intros _; unfold events.Encode; split;
       [ destruct (encode _); reflexivity
       | intros data Henc; rewrite Henc; reflexivity ] ]).
Qed.

Lemma user_event_gets_missing_timestamp_witness :
  events.NewEventService ["kafka:9092"] = Ok events.sampleService
  /\ http.Method (events.samplePost "ada") = "POST"
  /\ events.sampleDecodeUser (http.ReqBody (events.samplePost "ada"))
     = Ok (events.UserEvent.mk 3 "ada" EmptyString "login" (events.mkTime 0 0))
  /\ events.written
       (snd (events.handleUserEvent events.sampleDecodeUser
               events.sampleMarshal events.sampleEncode
               events.sampleService
               http.response _ http.newResponse (events.samplePost "ada")
               (events.sampleState events.accepting)))
     = [(events.writerFor ["kafka:9092"] "user-events",
         events.kafka.mkMessage "uuid-0" "user:uuid-0")].
Proof.
  split; [reflexivity|]. split; [reflexivity|]. split; [reflexivity|].
  destruct (user_event_gets_missing_timestamp events.sampleDecodeUser
              events.sampleMarshal events.sampleEncode ["kafka:9092"]
              events.sampleService
              (events.samplePost "ada")
              (events.sampleState events.accepting)
              (events.UserEvent.mk 3 "ada" EmptyString "login"
                                   (events.mkTime 0 0))
              "user:uuid-0" eq_refl eq_refl eq_refl eq_refl) as [H _].
  exact H.
Defined.

(** X19. The same for a payment event: a missing timestamp is filled
    with the time of arrival, a given one is kept; the event gets a
    fresh UUID, the type [payment] and the time read next, and is handed
    to Kafka exactly once, on [payment-events], keyed by its ID; the
    answer is [201], or [500] with Kafka's error. *)
Theorem payment_event_gets_missing_timestamp
    (decodePayment : string -> result events.PaymentEvent.t)
    (marshal : events.Event -> result string)
    (encode : events.EventResponse -> result string)
    (brokers : list string) (es : events.EventService)
    (r : http.Request) (s : events.State)
    (paymentEvent : events.PaymentEvent.t) (bytes : string) :
  let first :=
    if events.IsZero (events.PaymentEvent.Timestamp paymentEvent)
    then S (events.ticks s) else events.ticks s in
  let event :=
    events.mkEvent (events.uuids s (events.issued s)) "payment"
      (events.clock s first)
      (events.PaymentPayload
         (events.stampedPayment (events.clock s (events.ticks s))
                                paymentEvent)) in
  let msg := events.kafka.mkMessage (events.ID event) bytes in
  let run :=
    events.handlePaymentEvent decodePayment marshal encode
      es http.response _ http.newResponse r s in
  events.NewEventService brokers = Ok es ->
  http.Method r = "POST" ->
  decodePayment (http.ReqBody r) = Ok paymentEvent ->
  marshal event = Ok bytes ->
  events.written (snd run) =
    (events.written s ++
     [(events.writerFor brokers "payment-events", msg)])%list
  /\ (forall err,
        events.broker s (events.writerFor brokers "payment-events") msg
        = Some err ->
        http.status (fst run) = 500
        /\ http.body (fst run) = err ++ String json.newline EmptyString)
  /\ (events.broker s (events.writerFor brokers "payment-events") msg = None ->
      http.status (fst run) = 201
      /\ (forall data,
            encode (events.mkEventResponse "success" 0
                      (events.Unix (events.clock s (S first))) event)
            = Ok data ->
            http.body (fst run) = data)).
Proof.
  intros first event msg run Hes Hm Hd Hb. subst run.
  apply NewEventService_inv in Hes as [_ ->].
  assert (He : String.eqb (http.Method r) "POST" = true)
    by (rewrite Hm; reflexivity).
  unfold events.handlePaymentEvent. rewrite He, Hd.
  subst msg event first. unfold events.stampedPayment in *.
  destruct (events.IsZero (events.PaymentEvent.Timestamp paymentEvent));
    unfold mbind, events.SM_bind, events.uuid_New, events.time_Now;
    cbn [negb mret events.SM_ret events.clock events.ticks events.uuids
         events.issued events.broker events.written events.journal];
    rewrite (PublishEvent_built marshal brokers "payment-events" _ bytes)
      by (simpl; tauto || exact Hb);
    cbn [events.clock events.ticks events.uuids events.issued
         events.broker events.written events.journal events.ID];
    (destruct (events.broker s _ _) as [e|]; simpl;
     [ split; [reflexivity|]; split; [|discriminate];
       intros err [= <-]; split; reflexivity
     | split; [reflexivity|]; split; [discriminate|];
       intros _; unfold events.Encode; split;
       [ destruct (encode _); reflexivity
       | intros data Henc; rewrite Henc; reflexivity ] ]).
Qed.

Lemma payment_event_gets_missing_timestamp_witness :
  events.NewEventService ["kafka:9092"] = Ok events.sampleService
  /\ http.Method (events.samplePost "paid") = "POST"
  /\ events.sampleDecodePayment (http.ReqBody (events.samplePost "paid"))
     = Ok (events.PaymentEvent.mk 11 3 0 "paid"
                                  (events.mkTime 63800000000 0) "card")
  /\ events.written
       (snd (events.handlePaymentEvent events.sampleDecodePayment
               events.sampleMarshal events.sampleEncode
               events.sampleService
               http.response _ http.newResponse (events.samplePost "paid")
               (events.sampleState events.accepting)))
     = [(events.writerFor ["kafka:9092"] "payment-events",
         events.kafka.mkMessage "uuid-0" "payment:uuid-0")].
Proof.
  split; [reflexivity|]. split; [reflexivity|]. split; [reflexivity|].
  destruct (payment_event_gets_missing_timestamp events.sampleDecodePayment
              events.sampleMarshal events.sampleEncode ["kafka:9092"]
              events.sampleService
              (events.samplePost "paid")
              (events.sampleState events.accepting)
              (events.PaymentEvent.mk 11 3 0 "paid"
                                      (events.mkTime 63800000000 0) "card")
              "payment:uuid-0" eq_refl eq_refl eq_refl eq_refl) as [H _].
  exact H.
Defined.

(** * Starting the gateway *)

(** X20. [NewProxyServer] builds a server exactly when the three backend
    URLs parse, and the server holds the configuration it was given.
    Otherwise it fails with the error of the first URL that does not
    parse, the monolith's before the movies service's before the events
    service's, under the matching prefix. *)
Theorem NewProxyServer_needs_three_urls
    (parse : string -> result url.URL) (cfg : Config) :
  ((exists ps, NewProxyServer parse cfg = Ok ps)
   <-> (exists m v e,
          parse (MonolithURL cfg) = Ok m
          /\ parse (MoviesServiceURL cfg) = Ok v
          /\ parse (EventsServiceURL cfg) = Ok e))
  /\ (forall ps, NewProxyServer parse cfg = Ok ps -> config ps = cfg)
  /\ (forall err, parse (MonolithURL cfg) = Err err ->
      NewProxyServer parse cfg = Err ("invalid monolith URL: " ++ err))
  /\ (forall m err,
        parse (MonolithURL cfg) = Ok m ->
        parse (MoviesServiceURL cfg) = Err err ->
        NewProxyServer parse cfg = Err ("invalid movies service URL: " ++ err))
  /\ (forall m v err,
        parse (MonolithURL cfg) = Ok m ->
        parse (MoviesServiceURL cfg) = Ok v ->
        parse (EventsServiceURL cfg) = Err err ->
        NewProxyServer parse cfg = Err ("invalid events service URL: " ++ err)).
Proof.
  split; [|split; [|split; [|split]]].
  - unfold NewProxyServer. split.
    + intros [ps H].
      destruct (parse (MonolithURL cfg)) as [m|]; [|discriminate].
      destruct (parse (MoviesServiceURL cfg)) as [v|]; [|discriminate].
      destruct (parse (EventsServiceURL cfg)) as [e|]; [|discriminate].
      exists m, v, e. repeat split.
    + intros (m & v & e & -> & -> & ->). eexists. reflexivity.
  - intros ps H. exact (NewProxyServer_config parse cfg ps H).
  - intros err H. unfold NewProxyServer. rewrite H. reflexivity.
  - intros m err H1 H2. unfold NewProxyServer. rewrite H1, H2. reflexivity.
  - intros m v err H1 H2 H3. unfold NewProxyServer.
    rewrite H1, H2, H3. reflexivity.
Qed.

Lemma NewProxyServer_needs_three_urls_witness :
  (fun s : string => if String.eqb s "movies:8081" then Err "missing scheme"
                     else sampleParse s) (MonolithURL (sampleConfig true 50))
  = Ok (sampleURL "monolith:8080")
  /\ (fun s : string => if String.eqb s "movies:8081" then Err "missing scheme"
                        else sampleParse s)
       (MoviesServiceURL (sampleConfig true 50))
     = Err "missing scheme"
  /\ NewProxyServer
       (fun s : string => if String.eqb s "movies:8081"
                          then Err "missing scheme" else sampleParse s)
       (sampleConfig true 50)
     = Err "invalid movies service URL: missing scheme".
Proof.
  split; [reflexivity|]. split; [reflexivity|].
  destruct (NewProxyServer_needs_three_urls
              (fun s : string => if String.eqb s "movies:8081"
                                 then Err "missing scheme" else sampleParse s)
              (sampleConfig true 50)) as (_ & _ & _ & H & _).
  apply (H (sampleURL "monolith:8080") "missing scheme"); reflexivity.
Defined.
